(** * mangum-cli: the command dispatcher of [mangum_cli/commands.py]

    A shallow embedding of the commands ([init], [create_bucket], [build],
    [package], [deploy], [all], [validate], [delete], [describe]) and of
    [get_config], as programs of a small state-and-exception monad over
    the working directory, the file system and the console.

    The libraries the module calls (PyYAML, uuid, boto3) and the methods
    of the [Config] object are collaborators: they are fields of a record
    of externals, and every call to one of them is logged in a trace. *)

From stdpp Require Import gmap strings list fin_maps sorting.
From Stdlib Require Import Ascii String ZArith Lia DecimalString.

Open Scope string_scope.
Open Scope list_scope.

(** ** Python values and exceptions *)

(** The values that travel through [yaml.dump] / [yaml.safe_load] and the
    keyword arguments of [Config]. A [dict] keeps its insertion order
    ([sort_keys=False]), hence an association list. *)
#[warnings="-register-all"]
Inductive pyval : Type :=
| PNone
| PBool (b : bool)
| PInt (z : Z)
| PStr (s : string)
| PDict (items : list (string * pyval)).

(** The exception classes that occur in the module. [RuntimeError exc]
    carries the exception it was built from. *)
Inductive exn : Type :=
| IOError (msg : string)
| YAMLError (msg : string)
| RuntimeError (cause : exn)
| TypeError (msg : string)
| ClientError (msg : string)
| OtherError (cls msg : string).

(** [str(exc)], what [click.echo(exc)] prints. *)
Fixpoint str_exn (e : exn) : string :=
  match e with
  | IOError m | YAMLError m | TypeError m | ClientError m => m
  | RuntimeError c => str_exn c
  | OtherError _ m => m
  end.

Inductive Result (A : Type) : Type :=
| Ok (a : A)
| Raise (e : exn).
Arguments Ok {A} a.
Arguments Raise {A} e.

(** Conversion of an optional string inside an f-string: [None] prints
    as the word None. *)
Definition fmt_opt (o : option string) : string :=
  match o with
  | Some s => s
  | None => "None"
  end.

(** Python truthiness of an optional string: [not x] holds for [None]
    and for the empty string. *)
Definition falsy (o : option string) : bool :=
  match o with
  | None => true
  | Some s => if decide (s = "") then true else false
  end.

Definition opt_str (o : option string) : pyval :=
  match o with
  | Some s => PStr s
  | None => PNone
  end.

(** ** The regular expression of the stack-name check *)

Module Re.

(** The fragment of [re] patterns the module uses: anchors, a character
    class, and a character class under [+]. *)
Inductive atom : Type :=
| Bol                                (* ^ *)
| Eol                                (* $ *)
| One (cls : ascii -> bool)          (* [...] *)
| Many1 (cls : ascii -> bool).       (* [...]+ *)

Definition in_range (lo hi c : ascii) : bool :=
  (Ascii.leb lo c && Ascii.leb c hi)%bool.

(** [$] without [re.MULTILINE]: the end of the string, or just before a
    newline that ends the string. *)
Definition at_eol (s : string) : bool :=
  match s with
  | EmptyString => true
  | String c EmptyString => if decide (c = "010"%char) then true else false
  | _ => false
  end.

(** [cls+] followed by the rest of the pattern, [k]: one character of
    the class, then either more of them or the rest (backtracking makes
    greedy and lazy search agree on whether there is a match). *)
Fixpoint many_then (cls : ascii -> bool) (k : string -> bool) (s : string) : bool :=
  match s with
  | String c s' => cls c && (many_then cls k s' || k s')
  | EmptyString => false
  end.

(** [match_at re start s]: some prefix of [s] matches [re]; [start]
    tells whether [s] begins at position 0. *)
Fixpoint match_at (re : list atom) (start : bool) (s : string) {struct re} : bool :=
  match re with
  | [] => true
  | Bol :: re' => start && match_at re' start s
  | Eol :: re' => at_eol s && match_at re' start s
  | One cls :: re' =>
      match s with
      | String c s' => cls c && match_at re' false s'
      | EmptyString => false
      end
  | Many1 cls :: re' => many_then cls (match_at re' false) s
  end.

(** [re.compile(p).match(s) is not None] *)
Definition matches (re : list atom) (s : string) : bool := match_at re true s.

End Re.

(** [[a-zA-Z]] *)
Definition cls_alpha (c : ascii) : bool :=
  Re.in_range "a" "z" c || Re.in_range "A" "Z" c.

(** [[a-zA-Z-]] *)
Definition cls_alpha_hyphen (c : ascii) : bool :=
  Re.in_range "a" "z" c || Re.in_range "A" "Z" c || (if decide (c = "-"%char) then true else false).

(** [r'^[a-zA-Z][a-zA-Z-]+$'] *)
Definition stack_name_re : list Re.atom :=
  [Re.Bol; Re.One cls_alpha; Re.Many1 cls_alpha_hyphen; Re.Eol].

(** The condition of the [if] that opens [init]. A name is the sequence
    of its UTF-8 bytes: a name with a character outside ASCII fails the
    pattern whichever way its length is counted. *)
Definition stack_name_ok (name : string) : bool :=
  Re.matches stack_name_re name && (String.length name <=? 128)%nat.


(** ** The configuration object *)

Module Config.

(** Modelled from the spec: the class [Config] of [mangum_cli/config.py],
    which is not part of the sources at hand. The spec describes it as a
    structured configuration object holding the named settings of the
    descriptor (stack name, bucket name, region, runtime, handler path,
    timeout, access flags, websocket flag); the constructor, called with the
    loaded mapping unpacked into keywords, stores each keyword under the attribute of the same name. Its lifecycle methods
    are collaborators (see [Externals] below). *)
Record t : Type := make {
  name : pyval;
  code_dir : pyval;
  handler : pyval;
  bucket_name : pyval;
  region_name : pyval;
  runtime : pyval;
  websockets : pyval;
  timeout : pyval;
  s3_access : pyval;
  dynamodb_access : pyval;
}.

Fixpoint kwarg (k : string) (items : list (string * pyval)) : option pyval :=
  match items with
  | [] => None
  | (k', v) :: rest => if decide (k' = k) then Some v else kwarg k rest
  end.

Definition of_kwargs (items : list (string * pyval)) : option t :=
  a ← kwarg "name" items;
  b ← kwarg "code_dir" items;
  c ← kwarg "handler" items;
  d ← kwarg "bucket_name" items;
  e ← kwarg "region_name" items;
  f ← kwarg "runtime" items;
  g ← kwarg "websockets" items;
  h ← kwarg "timeout" items;
  i ← kwarg "s3_access" items;
  j ← kwarg "dynamodb_access" items;
  Some (make a b c d e f g h i j).

(** Modelled from the spec: the constructor call of [get_config], with
    [config_data] unpacked into keywords. Unpacking needs a mapping, and a setting without a value is a
    [TypeError]. *)
Definition new (config_data : pyval) : Result t :=
  match config_data with
  | PDict items =>
      match of_kwargs items with
      | Some c => Ok c
      | None => Raise (TypeError "__init__() missing required arguments")
      end
  | _ => Raise (TypeError "argument after ** must be a mapping")
  end.

End Config.

(** The methods of [Config] that the commands call. *)
Inductive LifecycleOp : Type :=
| Build (no_pip : bool)
| Package
| Deploy
| Describe
| Validate
| Delete.

(** A call that leaves the module: a method of the configuration object,
    or the S3 client's [create_bucket]. *)
Inductive Event : Type :=
| EvLifecycle (config : Config.t) (op : LifecycleOp)
| EvCreateBucket (Bucket : string) (LocationConstraint : option string).

(** ** POSIX paths *)

Definition starts_with_sep (s : string) : bool :=
  match s with
  | String c _ => if decide (c = "/"%char) then true else false
  | EmptyString => false
  end.

Fixpoint ends_with_sep (s : string) : bool :=
  match s with
  | EmptyString => false
  | String c EmptyString => if decide (c = "/"%char) then true else false
  | String _ s' => ends_with_sep s'
  end.

(** [os.path.join(a, b)] of [posixpath]. *)
Definition path_join (a b : string) : string :=
  if starts_with_sep b then b
  else if (if decide (a = "") then true else ends_with_sep a) then a +:+ b
  else a +:+ "/" +:+ b.


(** ** The machine, the collaborators and the command monad *)

Section Machine.

(** Whatever lies outside the process: the cloud account, the entropy
    source, the AWS profile. *)
Context {Ext : Type}.

Record World : Type := mkWorld {
  cwd : string;                      (* os.getcwd() *)
  fs : gmap string string;           (* regular files, by path *)
  stdout : list string;              (* one entry per click.echo *)
  ext : Ext;
}.

(** The libraries and the [Config] methods, as the module uses them. *)
Record Externals : Type := mkExternals {
  (* yaml.dump(_, default_flow_style=False, sort_keys=False) *)
  yaml_dump : pyval -> string;
  (* yaml.safe_load *)
  yaml_safe_load : string -> Result pyval;
  (* str(uuid.uuid4()) *)
  uuid4 : Ext -> string * Ext;
  (* boto3.session.Session().region_name *)
  session_region_name : Ext -> option string;
  (* boto3.client("s3").create_bucket(Bucket=_, CreateBucketConfiguration=
     {"LocationConstraint": _}) *)
  s3_create_bucket : string -> option string -> Ext -> Result unit * Ext;
  (* config.build(no_pip=_), config.package(), ... *)
  lifecycle : Config.t -> LifecycleOp -> World -> Result unit * World;
}.

Variable X : Externals.

(** The state a command runs in: the world, and the log of the calls
    made to collaborators so far. *)
Record State : Type := mkState {
  world : World;
  calls : list Event;
}.

Definition M (A : Type) : Type := State -> Result A * State.

Definition ret {A} (a : A) : M A := fun st => (Ok a, st).

Definition bind {A B} (m : M A) (k : A -> M B) : M B :=
  fun st =>
    match m st with
    | (Ok a, st') => k a st'
    | (Raise e, st') => (Raise e, st')
    end.

Definition raise {A} (e : exn) : M A := fun st => (Raise e, st).

Definition lift {A} (r : Result A) : M A := fun st => (r, st).

(** [try: body / except <class> as exc: handler / else: orelse]. The
    handler answers [None] for an exception its clause does not name. *)
Definition try_except_else {A B}
    (body : M A) (handler : exn -> option (M B)) (orelse : A -> M B) : M B :=
  fun st =>
    match body st with
    | (Ok a, st') => orelse a st'
    | (Raise e, st') =>
        match handler e with
        | Some h => h st'
        | None => (Raise e, st')
        end
    end.

Definition except_YAMLError {B} (h : exn -> M B) (e : exn) : option (M B) :=
  match e with
  | YAMLError _ => Some (h e)
  | _ => None
  end.

Definition except_ClientError {B} (h : exn -> M B) (e : exn) : option (M B) :=
  match e with
  | ClientError _ => Some (h e)
  | _ => None
  end.

Definition set_fs (f : gmap string string) (w : World) : World :=
  mkWorld (cwd w) f (stdout w) (ext w).
Definition set_stdout (o : list string) (w : World) : World :=
  mkWorld (cwd w) (fs w) o (ext w).
Definition set_ext (x : Ext) (w : World) : World :=
  mkWorld (cwd w) (fs w) (stdout w) x.
Definition on_world (f : World -> World) (st : State) : State :=
  mkState (f (world st)) (calls st).

(** [os.getcwd()] *)
Definition getcwd : M string := fun st => (Ok (cwd (world st)), st).

(** [os.path.exists(path)] *)
Definition path_exists (path : string) : M bool :=
  fun st => (Ok (bool_decide (is_Some (fs (world st) !! path))), st).

(** [with open(path, "r") as f: f.read()] *)
Definition read_file (path : string) : M string :=
  fun st =>
    match fs (world st) !! path with
    | Some data => (Ok data, st)
    | None => (Raise (IOError ("No such file or directory: '" +:+ path +:+ "'")), st)
    end.

(** [with open(path, "w") as f: f.write(data)]: the file is truncated,
    or created. *)
Definition write_file (path data : string) : M unit :=
  fun st => (Ok tt, on_world (fun w => set_fs (<[path := data]> (fs w)) w) st).

(** [with open(path, "a") as f: f.write(data)]: the data goes after the
    present content; a missing file is created. *)
Definition append_file (path data : string) : M unit :=
  fun st =>
    (Ok tt,
     on_world (fun w => set_fs (<[path := default "" (fs w !! path) +:+ data]> (fs w)) w) st).

(** [click.echo(line)] *)
Definition echo (line : string) : M unit :=
  fun st => (Ok tt, on_world (fun w => set_stdout (stdout w ++ [line]) w) st).

(** A method call on the configuration object, logged. *)
Definition invoke (config : Config.t) (op : LifecycleOp) : M unit :=
  fun st =>
    let (r, w') := lifecycle X config op (world st) in
    (r, mkState w' (calls st ++ [EvLifecycle config op])).

(** [uuid.uuid4()] formatted by the f-string. *)
Definition gen_uuid4 : M string :=
  fun st =>
    let (u, x') := uuid4 X (ext (world st)) in
    (Ok u, on_world (set_ext x') st).

(** [s3_client.create_bucket(...)], logged. *)
Definition client_create_bucket (bucket : string) (region : option string) : M unit :=
  fun st =>
    let (r, x') := s3_create_bucket X bucket region (ext (world st)) in
    (r, mkState (set_ext x' (world st)) (calls st ++ [EvCreateBucket bucket region])).

End Machine.

Arguments World : clear implicits.
Arguments Externals : clear implicits.
Arguments State : clear implicits.
Arguments M : clear implicits.

#[global] Instance M_ret {Ext} : MRet (M Ext) := fun A a => ret a.
#[global] Instance M_bind {Ext} : MBind (M Ext) := fun A B k m => bind m k.

(** The newline character of the Python literals. *)
Definition nl : string := String "010"%char "".

(** ** The commands *)

Module Commands.
Section WithExternals.

Context {Ext : Type} (X : Externals Ext).

Definition get_config : M Ext Config.t :=
  config_dir ← getcwd;
  let config_file_path := path_join config_dir "mangum.yml" in
  found ← path_exists config_file_path;
  if negb found then
    raise (IOError ("File not found: '" +:+ config_file_path +:+ "' does not exist."))
  else
    config_data ← read_file config_file_path;
    config_data ← try_except_else
                    (lift (yaml_safe_load X config_data))
                    (except_YAMLError (fun exc => raise (RuntimeError exc)))
                    ret;
    lift (Config.new config_data).

Definition get_default_region_name : M Ext (option string) :=
  fun st => (Ok (session_region_name X (ext (world st))), st).

(** The lines [init] echoes for a name that fails its check. *)
Definition warning_lines : list string :=
  [ "*** WARNING ***";
    "Illegal stack name.";
    "A stack name can contain only alphanumeric characters (case-sensitive) and hyphens.";
    "It must start with an alphabetic character and can't be longer than 128 characters.";
    "(https://docs.aws.amazon.com/AWSCloudFormation/latest/UserGuide/cfn-using-console-create-stack-parameters.html)";
    "" ].

Fixpoint echo_all (lines : list string) : M Ext unit :=
  match lines with
  | [] => ret tt
  | l :: rest => echo l;; echo_all rest
  end.

(** The dictionary [config] that [init] builds. *)
Definition descriptor (name : string) (bucket_name region_name runtime : option string)
    (s3_access dynamodb_access : bool) : pyval :=
  PDict [ ("name", PStr name);
          ("code_dir", PStr "app");
          ("handler", PStr "asgi.handler");
          ("bucket_name", opt_str bucket_name);
          ("region_name", opt_str region_name);
          ("runtime", opt_str runtime);
          ("websockets", PBool false);
          ("timeout", PInt 300);
          ("s3_access", PBool s3_access);
          ("dynamodb_access", PBool dynamodb_access) ].

Definition init (name : string) (bucket_name region_name runtime : option string)
    (s3_access dynamodb_access : bool) : M Ext unit :=
  (if stack_name_ok name then ret tt else echo_all warning_lines);;
  echo "Generating initial configuration...";;
  config_dir ← getcwd;
  let config := descriptor name bucket_name region_name runtime s3_access dynamodb_access in
  write_file (path_join config_dir "mangum.yml") (yaml_dump X config);;
  append_file (path_join config_dir "requirements.txt") ("mangum" +:+ nl);;
  echo ("Configuration saved to: " +:+ config_dir +:+ "/mangum.yml").

Definition build (no_pip : bool) : M Ext unit :=
  config ← get_config;
  invoke X config (Build no_pip).

(** [boto3.client("s3")] only builds the client object and sends no
    request; the request is [client_create_bucket]. *)
Definition create_bucket (bucket_name region_name : option string) : M Ext unit :=
  bucket_name ← (if falsy bucket_name then
                   echo "No bucket name provided, one will be generated.";;
                   u ← gen_uuid4 X;
                   ret ("mangum-" +:+ u)
                 else ret (default "" bucket_name));
  region_name ← (if falsy region_name then
                   r ← get_default_region_name;
                   echo "No region specified, using default.";;
                   ret r
                 else ret region_name);
  try_except_else
    (client_create_bucket X bucket_name region_name)
    (except_ClientError (fun exc => echo (str_exn exc)))
    (fun _ => echo ("Bucket name:" +:+ nl +:+ bucket_name +:+ nl +:+
                    "Region name:" +:+ nl +:+ fmt_opt region_name)).

Definition package : M Ext unit :=
  config ← get_config;
  invoke X config Package.

Definition deploy : M Ext unit :=
  config ← get_config;
  invoke X config Deploy;;
  invoke X config Describe.

Definition all (no_pip : bool) : M Ext unit :=
  config ← get_config;
  invoke X config (Build no_pip);;
  invoke X config Package;;
  invoke X config Deploy;;
  invoke X config Describe.

Definition validate : M Ext unit :=
  config ← get_config;
  invoke X config Validate.

Definition delete : M Ext unit :=
  config ← get_config;
  invoke X config Delete.

Definition describe : M Ext unit :=
  config ← get_config;
  invoke X config Describe.

(** The two [if] statements of [create_bucket] that settle the bucket
    name and the region before the [try] statement, on their own. *)
Definition bucket_and_region (bucket_name region_name : option string)
    : M Ext (string * option string) :=
  bucket_name ← (if falsy bucket_name then
                   echo "No bucket name provided, one will be generated.";;
                   u ← gen_uuid4 X;
                   ret ("mangum-" +:+ u)
                 else ret (default "" bucket_name));
  region_name ← (if falsy region_name then
                   r ← get_default_region_name;
                   echo "No region specified, using default.";;
                   ret r
                 else ret region_name);
  ret (bucket_name, region_name).

(** The message of the [else] clause of [create_bucket]. *)
Definition bucket_message (bucket_name : string) (region_name : option string) : string :=
  "Bucket name:" +:+ nl +:+ bucket_name +:+ nl +:+
  "Region name:" +:+ nl +:+ fmt_opt region_name.

(** The click group [mangum_cli]: one constructor per registered
    command that the claims speak of, with its parsed arguments. *)
Inductive Subcommand : Type :=
| SubInit (name : string) (bucket_name region_name runtime : option string)
          (s3_access dynamodb_access : bool)
| SubBuild (no_pip : bool)
| SubCreateBucket (bucket_name region_name : option string)
| SubPackage
| SubDeploy
| SubAll (no_pip : bool)
| SubValidate
| SubDelete
| SubDescribe.

Definition mangum_cli (c : Subcommand) : M Ext unit :=
  match c with
  | SubInit name bucket_name region_name runtime s3_access dynamodb_access =>
      init name bucket_name region_name runtime s3_access dynamodb_access
  | SubBuild no_pip => build no_pip
  | SubCreateBucket bucket_name region_name => create_bucket bucket_name region_name
  | SubPackage => package
  | SubDeploy => deploy
  | SubAll no_pip => all no_pip
  | SubValidate => validate
  | SubDelete => delete
  | SubDescribe => describe
  end.

(** The commands that begin with [config = get_config()]. *)
Definition is_lifecycle (c : Subcommand) : bool :=
  match c with
  | SubInit _ _ _ _ _ _ | SubCreateBucket _ _ => false
  | _ => true
  end.

(** [init] run [n] times in a row with the same arguments. *)
Fixpoint init_times (n : nat) (name : string) (bucket_name region_name runtime : option string)
    (s3_access dynamodb_access : bool) : M Ext unit :=
  match n with
  | O => ret tt
  | S k =>
      init name bucket_name region_name runtime s3_access dynamodb_access;;
      init_times k name bucket_name region_name runtime s3_access dynamodb_access
  end.

End WithExternals.
End Commands.

(** ** Shell completion *)

Module Completion.

(** [string.startswith(incomplete)] *)
Fixpoint startswith (str incomplete : string) : bool :=
  match incomplete, str with
  | EmptyString, _ => true
  | String a incomplete', String b str' =>
      (if decide (a = b) then true else false) && startswith str' incomplete'
  | String _ _, EmptyString => false
  end.

(** Strings of ASCII characters, and what [str.lower] is on them. On
    other strings [str.lower] is left to the parameter [lower] below. *)
Definition is_ascii_char (c : ascii) : bool :=
  match c with
  | Ascii _ _ _ _ _ _ _ b7 => negb b7
  end.

Fixpoint is_ascii (s : string) : bool :=
  match s with
  | EmptyString => true
  | String c s' => is_ascii_char c && is_ascii s'
  end.

Definition ascii_lower_char (c : ascii) : ascii :=
  if Re.in_range "A" "Z" c then ascii_of_nat (nat_of_ascii c + 32) else c.

Fixpoint ascii_lower (s : string) : string :=
  match s with
  | EmptyString => EmptyString
  | String c s' => String (ascii_lower_char c) (ascii_lower s')
  end.

(** The name of the environment variable that [custom_startswith] reads
    and [complement] sets. *)
Definition CASE_INSENSITIVE_COMPLETE : string :=
  "_CLICK_COMPLETION_COMMAND_CASE_INSENSITIVE_COMPLETE".

Section WithLower.

(** [str.lower] *)
Variable lower : string -> string.

(** [environ] is [os.environ]; [os.environ.get] of a variable that is
    unset gives [None], and an empty value is falsy as well. *)
Definition custom_startswith (environ : gmap string string) (str incomplete : string) : bool :=
  if negb (falsy (environ !! CASE_INSENSITIVE_COMPLETE)) then
    startswith (lower str) (lower incomplete)
  else
    startswith str incomplete.

End WithLower.

(** The dictionary [extra_env] that [complement] builds from its flag
    and hands to the installer of the completion code. *)
Definition extra_env (case_insensitive : bool) : gmap string string :=
  if case_insensitive then {[ CASE_INSENSITIVE_COMPLETE := "ON" ]} else ∅.

(** The listing of shells inside [cmd_help]. [shells] is
    [click_completion.core.shells], from shell name to description. *)

Fixpoint spaces (n : nat) : string :=
  match n with
  | O => EmptyString
  | S k => String " "%char (spaces k)
  end.

(** ['{:<12}'.format(k)]: left-justified in 12 columns, never cut. *)
Definition ljust (width : nat) (s : string) : string :=
  s +:+ spaces (width - String.length s).

(** ['{:<12} {}'.format(k, shells[k])] *)
Definition shell_line (k v : string) : string :=
  ljust 12 k +:+ " " +:+ v.

(** [sorted(shells.keys())] *)
Definition shell_keys (shells : gmap string string) : list string :=
  merge_sort String.le (elements (dom shells)).

Definition shell_lines (shells : gmap string string) : list string :=
  map (fun k => shell_line k (default "" (shells !! k))) (shell_keys shells).

(** [sep.join(items)] *)
Fixpoint join (sep : string) (items : list string) : string :=
  match items with
  | [] => EmptyString
  | [x] => x
  | x :: rest => x +:+ sep +:+ join sep rest
  end.

Definition cmd_help (shells : gmap string string) : string :=
  "Shell completion for click-completion-command" +:+ nl +:+ nl +:+
  "Available shell types:" +:+ nl +:+ nl +:+
  String "008"%char nl +:+
  "  " +:+ join (nl +:+ "  ") (shell_lines shells) +:+ nl +:+ nl +:+
  "Default type: auto" +:+ nl.

End Completion.

(** ** Specification-side definitions *)

(** The rule for stack names in the words of the specification (and of
    the warning that [init] prints): only alphanumeric characters and
    hyphens, an alphabetic first character, at most 128 characters. *)
Definition is_alpha (c : ascii) : bool :=
  Re.in_range "a" "z" c || Re.in_range "A" "Z" c.

Definition is_alnum_or_hyphen (c : ascii) : bool :=
  is_alpha c || Re.in_range "0" "9" c || (if decide (c = "-"%char) then true else false).

Fixpoint string_forall (p : ascii -> bool) (s : string) : bool :=
  match s with
  | EmptyString => true
  | String c s' => p c && string_forall p s'
  end.

Definition spec_valid_stack_name (name : string) : bool :=
  match name with
  | EmptyString => false
  | String c _ => is_alpha c
  end
  && string_forall is_alnum_or_hyphen name
  && (String.length name <=? 128)%nat.

(** [s.splitlines()], for the line feed. *)
Fixpoint splitlines (s : string) : list string :=
  match s with
  | EmptyString => []
  | String c s' =>
      if decide (c = "010"%char) then EmptyString :: splitlines s'
      else match splitlines s' with
           | [] => [String c EmptyString]
           | l :: ls => String c l :: ls
           end
  end.

(** The lifecycle operations each command stands for, in call order. *)
Definition lifecycle_ops (c : Commands.Subcommand) : list LifecycleOp :=
  match c with
  | Commands.SubBuild no_pip => [Build no_pip]
  | Commands.SubPackage => [Package]
  | Commands.SubDeploy => [Deploy; Describe]
  | Commands.SubAll no_pip => [Build no_pip; Package; Deploy; Describe]
  | Commands.SubValidate => [Validate]
  | Commands.SubDelete => [Delete]
  | Commands.SubDescribe => [Describe]
  | Commands.SubInit _ _ _ _ _ _ | Commands.SubCreateBucket _ _ => []
  end.

(** Calling the operations one after the other on a loaded configuration;
    an exception of one of them ends the run. *)
Fixpoint invoke_seq {Ext} (X : Externals Ext) (config : Config.t) (ops : list LifecycleOp)
    : M Ext unit :=
  match ops with
  | [] => ret tt
  | op :: rest => invoke X config op;; invoke_seq X config rest
  end.

(** The two files of a project, as the commands name them. *)
Definition config_path {Ext} (st : State Ext) : string :=
  path_join (cwd (world st)) "mangum.yml".

Definition requirements_path {Ext} (st : State Ext) : string :=
  path_join (cwd (world st)) "requirements.txt".

(** The content of a file that may be missing, as append mode sees it. *)
Definition content {Ext} (st : State Ext) (path : string) : string :=
  default "" (fs (world st) !! path).

(** What [init] echoes in a directory [d]: the warning for a name that
    fails the check, then the two progress lines. *)
Definition init_output (name d : string) : list string :=
  (if stack_name_ok name then [] else Commands.warning_lines)
  ++ [ "Generating initial configuration...";
       "Configuration saved to: " +:+ d +:+ "/mangum.yml" ].

(** The text [n] runs of [init] add to [requirements.txt]. *)
Fixpoint mangum_lines (n : nat) : string :=
  match n with
  | O => ""
  | S k => "mangum" +:+ nl +:+ mangum_lines k
  end.

(** The reading of the dispatcher contract under which a command calls
    one lifecycle operation and nothing else. *)
Definition invokes_only {Ext} (X : Externals Ext) (c : Commands.Subcommand)
    (op : LifecycleOp) (st : State Ext) : Prop :=
  forall config : Config.t,
    fst (Commands.get_config X st) = Ok config ->
    calls (snd (Commands.mangum_cli X c st)) = calls st ++ [EvLifecycle config op].

(** ** A small instance of the collaborators, to run the commands on
    examples *)

Module MiniYaml.

(** A codec for the block mappings of scalars that [init] writes, one
    [key: value] per line. Strings that could be read as another scalar
    go between single quotes. *)

Definition is_digit (c : ascii) : bool := Re.in_range "0" "9" c.

Definition plain_char (c : ascii) : bool :=
  is_alpha c || is_digit c
  || bool_decide (c = "-"%char) || bool_decide (c = "."%char)
  || bool_decide (c = "_"%char) || bool_decide (c = "/"%char).

Definition reads_as_other_scalar (s : string) : bool :=
  bool_decide (s = "null") || bool_decide (s = "true") || bool_decide (s = "false")
  || string_forall is_digit s.

Definition plain_safe (s : string) : bool :=
  string_forall plain_char s && negb (reads_as_other_scalar s).

Fixpoint quote_body (s : string) : string :=
  match s with
  | EmptyString => EmptyString
  | String c s' =>
      if decide (c = "'"%char) then String c (String c (quote_body s'))
      else String c (quote_body s')
  end.

Fixpoint unquote_body (s : string) : option string :=
  match s with
  | EmptyString => None
  | String c s' =>
      if decide (c = "'"%char) then
        match s' with
        | EmptyString => Some EmptyString
        | String c' s'' =>
            if decide (c' = "'"%char) then String c <$> unquote_body s'' else None
        end
      else String c <$> unquote_body s'
  end.

Definition dump_scalar (v : pyval) : string :=
  match v with
  | PNone => "null"
  | PBool true => "true"
  | PBool false => "false"
  | PInt z => NilEmpty.string_of_int (Z.to_int z)
  | PStr s => if plain_safe s then s else "'" +:+ quote_body s +:+ "'"
  | PDict _ => "{}"
  end.

Definition dump (v : pyval) : string :=
  match v with
  | PDict items =>
      foldr (fun kv acc => kv.1 +:+ ": " +:+ dump_scalar kv.2 +:+ nl +:+ acc) "" items
  | _ => dump_scalar v +:+ nl
  end.

Definition load_scalar (s : string) : Result pyval :=
  if decide (s = "null") then Ok PNone
  else if decide (s = "true") then Ok (PBool true)
  else if decide (s = "false") then Ok (PBool false)
  else match s with
       | String c body =>
           if decide (c = "'"%char) then
             match unquote_body body with
             | Some t => Ok (PStr t)
             | None => Raise (YAMLError "found unexpected end of stream")
             end
           else if string_forall is_digit s then
             match NilEmpty.uint_of_string s with
             | Some d => Ok (PInt (Z.of_uint d))
             | None => Ok (PStr s)
             end
           else Ok (PStr s)
       | EmptyString => Ok PNone
       end.

(** [s.split(sep)] *)
Fixpoint split_on (sep : ascii) (s : string) : list string :=
  match s with
  | EmptyString => [EmptyString]
  | String c s' =>
      let r := split_on sep s' in
      if decide (c = sep) then EmptyString :: r
      else match r with
           | h :: t => String c h :: t
           | [] => [String c EmptyString]
           end
  end.

(** Cuts a line at its first [": "]. *)
Fixpoint split_key (s : string) : option (string * string) :=
  match s with
  | EmptyString => None
  | String c s' =>
      match s' with
      | String c' rest =>
          if decide (c = ":"%char ∧ c' = " "%char) then Some (EmptyString, rest)
          else (fun kv => (String c kv.1, kv.2)) <$> split_key s'
      | EmptyString => None
      end
  end.

Fixpoint load_lines (ls : list string) : Result (list (string * pyval)) :=
  match ls with
  | [] => Ok []
  | l :: rest =>
      if decide (l = "") then load_lines rest
      else match split_key l with
           | None => Raise (YAMLError "could not find expected ':'")
           | Some (k, v) =>
               match load_scalar v, load_lines rest with
               | Ok x, Ok items => Ok ((k, x) :: items)
               | Raise e, _ => Raise e
               | _, Raise e => Raise e
               end
           end
  end.

Definition safe_load (s : string) : Result pyval :=
  if string_forall (fun c => bool_decide (c = "010"%char) || bool_decide (c = " "%char)) s
  then Ok PNone
  else match load_lines (split_on "010"%char s) with
       | Ok items => Ok (PDict items)
       | Raise e => Raise e
       end.

End MiniYaml.

Module Ref.

(** An AWS account seen from the command line: the buckets that exist,
    the identifiers the entropy source will hand out, the region of the
    profile. *)
Record Account : Type := mkAccount {
  buckets : list string;
  entropy : list string;
  profile_region : option string;
}.

Definition uuid4 (a : Account) : string * Account :=
  match entropy a with
  | u :: rest => (u, mkAccount (buckets a) rest (profile_region a))
  | [] => ("00000000-0000-4000-8000-000000000000", a)
  end.

Definition s3_create_bucket (bucket : string) (region : option string) (a : Account)
    : Result unit * Account :=
  if bool_decide (bucket ∈ buckets a) then
    (Raise (ClientError "An error occurred (BucketAlreadyExists) when calling the CreateBucket operation"), a)
  else
    match region with
    | Some _ => (Ok tt, mkAccount (bucket :: buckets a) (entropy a) (profile_region a))
    | None => (Raise (OtherError "ParamValidationError" "Invalid type for parameter LocationConstraint"), a)
    end.

Definition op_name (op : LifecycleOp) : string :=
  match op with
  | Build true => "build --no-pip"
  | Build false => "build"
  | Package => "package"
  | Deploy => "deploy"
  | Describe => "describe"
  | Validate => "validate"
  | Delete => "delete"
  end.

(** Every method reports its name and returns; [validate] refuses a
    configuration without a bucket. *)
Definition lifecycle (config : Config.t) (op : LifecycleOp) (w : World Account)
    : Result unit * World Account :=
  match op, Config.bucket_name config with
  | Validate, PNone => (Raise (OtherError "ValueError" "no bucket"), w)
  | _, _ => (Ok tt, set_stdout (stdout w ++ [op_name op]) w)
  end.

Definition externals : Externals Account :=
  mkExternals MiniYaml.dump MiniYaml.safe_load uuid4 profile_region s3_create_bucket lifecycle.

Definition account : Account :=
  mkAccount ["taken"] ["123e4567-e89b-42d3-a456-426614174000"] (Some "eu-west-1").

(** A fresh project directory, and one that holds a descriptor. *)
Definition fresh : State Account :=
  mkState (mkWorld "/home/u/proj" ∅ [] account) [].

Definition descriptor_text : string :=
  MiniYaml.dump (Commands.descriptor "my-app" (Some "builds") (Some "eu-west-1")
                   (Some "python3.7") true false).

Definition config : Config.t :=
  Config.make (PStr "my-app") (PStr "app") (PStr "asgi.handler") (PStr "builds")
    (PStr "eu-west-1") (PStr "python3.7") (PBool false) (PInt 300) (PBool true) (PBool false).

(** The same directory with a requirements file and an application. *)
Definition populated : State Account :=
  mkState
    (mkWorld "/home/u/proj"
       {[ "/home/u/proj/requirements.txt" := "flask" +:+ nl;
          "/home/u/proj/app/asgi.py" := "handler = None" +:+ nl ]}
       [] account)
    [].

Definition project : State Account :=
  mkState (mkWorld "/home/u/proj" {[ "/home/u/proj/mangum.yml" := descriptor_text ]} [] account) [].

(** A directory whose descriptor is not YAML. *)
Definition broken : State Account :=
  mkState (mkWorld "/home/u/proj" {[ "/home/u/proj/mangum.yml" := "name" ]} [] account) [].

End Ref.

Module RefCompletion.

(** The shells of click-completion, and two environments. *)
Definition shells : gmap string string :=
  {[ "bash" := "Bourne again shell";
     "fish" := "Friendly interactive shell";
     "zsh" := "Z shell";
     "powershell" := "Windows PowerShell" ]}.

Definition plain_environ : gmap string string :=
  {[ "HOME" := "/home/u" ]}.

Definition insensitive_environ : gmap string string :=
  Completion.extra_env true ∪ plain_environ.

End RefCompletion.

Module RefFailing.

(** Collaborators that fail: a configuration object whose [build] and
    [deploy] raise, and a loader that runs out of memory. *)
Definition lifecycle (config : Config.t) (op : LifecycleOp) (w : World Ref.Account)
    : Result unit * World Ref.Account :=
  match op with
  | Build _ => (Raise (OtherError "CalledProcessError" "pip install failed"), w)
  | Deploy => (Raise (OtherError "WaiterError" "stack creation failed"), w)
  | _ => Ref.lifecycle config op w
  end.

Definition externals : Externals Ref.Account :=
  mkExternals MiniYaml.dump MiniYaml.safe_load Ref.uuid4 Ref.profile_region
    Ref.s3_create_bucket lifecycle.

Definition no_memory : Externals Ref.Account :=
  mkExternals MiniYaml.dump (fun _ => Raise (OtherError "MemoryError" "out of memory"))
    Ref.uuid4 Ref.profile_region Ref.s3_create_bucket Ref.lifecycle.

End RefFailing.

(** ** Proof automation for the monad *)

Create HintDb cmd.
#[global] Hint Unfold mbind M_bind mret M_ret bind ret raise lift echo getcwd path_exists
  read_file write_file append_file on_world set_fs set_stdout set_ext : cmd.

(** Unfolds the primitives of the command monad and projects the
    records that appear. *)
Ltac run :=
  repeat progress (autounfold with cmd; cbn beta iota zeta;
                   cbn [world cwd fs stdout ext calls fst snd negb]).

(** * Properties *)

(** ** The definitions on examples *)

Example stack_name_ok_ex1 : stack_name_ok "my-app" = true.
Proof. reflexivity. Qed.
Example stack_name_ok_ex2 : stack_name_ok "a" = false.
Proof. reflexivity. Qed.
Example stack_name_ok_ex3 : stack_name_ok "app1" = false.
Proof. reflexivity. Qed.
Example stack_name_ok_ex4 : stack_name_ok "-app" = false.
Proof. reflexivity. Qed.
Example path_join_ex1 : path_join "/home/u/proj" "mangum.yml" = "/home/u/proj/mangum.yml".
Proof. reflexivity. Qed.
Example path_join_ex2 : path_join "/" "mangum.yml" = "/mangum.yml".
Proof. reflexivity. Qed.
Example splitlines_ex1 : splitlines ("flask" +:+ nl +:+ "mangum" +:+ nl) = ["flask"; "mangum"].
Proof. vm_compute. reflexivity. Qed.
Example stack_name_ok_ex5 : stack_name_ok ("app" +:+ nl) = true.
Proof. vm_compute. reflexivity. Qed.
Example mini_yaml_ex1 :
  MiniYaml.safe_load Ref.descriptor_text
  = Ok (Commands.descriptor "my-app" (Some "builds") (Some "eu-west-1") (Some "python3.7") true false).
Proof. vm_compute. reflexivity. Qed.
Example mini_yaml_ex2 :
  MiniYaml.safe_load "name" = Raise (YAMLError "could not find expected ':'").
Proof. vm_compute. reflexivity. Qed.

(** ** Strings and paths *)

Lemma string_app_assoc (a b c : string) : (a +:+ b) +:+ c = a +:+ b +:+ c.
Proof.
  induction a as [|x a IH]; [reflexivity|].
  change (String x ((a +:+ b) +:+ c) = String x (a +:+ b +:+ c)). now f_equal.
Qed.

Lemma string_app_nil_r (a : string) : a +:+ "" = a.
Proof.
  induction a as [|x a IH]; [reflexivity|].
  change (String x (a +:+ "") = String x a). now f_equal.
Qed.

Lemma path_join_relative (a b : string) :
  starts_with_sep b = false ->
  exists prefix, path_join a b = prefix +:+ b /\
                 forall b', starts_with_sep b' = false -> path_join a b' = prefix +:+ b'.
Proof.
  intros Hb. unfold path_join. rewrite Hb.
  destruct (if decide (a = "") then true else ends_with_sep a) eqn:E.
  - exists a. split; [reflexivity|]. intros b' ->. reflexivity.
  - exists (a +:+ "/"). split.
    + now rewrite string_app_assoc.
    + intros b' ->. now rewrite string_app_assoc.
Qed.

(** The descriptor and the requirements file are two files, whatever the
    working directory. *)
Lemma config_path_ne_requirements (d : string) :
  path_join d "mangum.yml" ≠ path_join d "requirements.txt".
Proof.
  destruct (path_join_relative d "mangum.yml" eq_refl) as (p & -> & Hp).
  rewrite (Hp "requirements.txt" eq_refl).
  intros H. apply (inj (String.app p)) in H. discriminate H.
Qed.

Lemma splitlines_nil (s : string) : splitlines s = [] -> s = "".
Proof.
  destruct s as [|c s]; [reflexivity|]. cbn [splitlines].
  destruct (decide (c = "010"%char)); [discriminate|].
  destruct (splitlines s); discriminate.
Qed.

Lemma splitlines_append_line (body : string) :
  splitlines (body +:+ nl +:+ "mangum" +:+ nl) = splitlines (body +:+ nl) ++ ["mangum"].
Proof.
  induction body as [|c body IH]; [vm_compute; reflexivity|].
  change (splitlines (String c (body +:+ nl +:+ "mangum" +:+ nl))
          = splitlines (String c (body +:+ nl)) ++ ["mangum"]).
  cbn [splitlines]. rewrite IH.
  destruct (decide (c = "010"%char)); [reflexivity|].
  destruct (splitlines (body +:+ nl)) as [|l ls] eqn:E; [|reflexivity].
  apply splitlines_nil in E. destruct body; discriminate E.
Qed.

(** ** What one run of [init] does *)

Section InitFacts.

Context {Ext : Type} (X : Externals Ext).
Variables (name : string) (bucket_name region_name runtime : option string).
Variables (s3_access dynamodb_access : bool).

Lemma echo_all_run (lines : list string) (st : State Ext) :
  Commands.echo_all lines st
  = (Ok tt, on_world (fun w => set_stdout (stdout w ++ lines) w) st).
Proof.
  revert st. induction lines as [|l lines IH]; intros [[d f o x] tr].
  - cbn [Commands.echo_all]. run. now rewrite app_nil_r.
  - cbn [Commands.echo_all]. run. rewrite IH. run. now rewrite <- app_assoc.
Qed.

(** The state [init] ends in, in full. *)
Lemma init_run (st : State Ext) :
  let w := world st in
  let yml := path_join (cwd w) "mangum.yml" in
  let req := path_join (cwd w) "requirements.txt" in
  Commands.init X name bucket_name region_name runtime s3_access dynamodb_access st
  = (Ok tt,
     mkState
       (mkWorld (cwd w)
          (<[req := default "" (fs w !! req) +:+ "mangum" +:+ nl]>
             (<[yml := yaml_dump X (Commands.descriptor name bucket_name region_name runtime
                                      s3_access dynamodb_access)]> (fs w)))
          (stdout w ++ init_output name (cwd w))
          (ext w))
       (calls st)).
Proof.
  destruct st as [[d f o x] tr]. cbn zeta. cbn [world cwd fs stdout ext calls].
  unfold Commands.init, init_output.
  destruct (stack_name_ok name).
  - run. rewrite lookup_insert_ne by apply config_path_ne_requirements.
    now rewrite <- !app_assoc.
  - unfold mbind at 1, M_bind at 1, bind at 1. rewrite echo_all_run. run.
    rewrite lookup_insert_ne by apply config_path_ne_requirements.
    now rewrite <- !app_assoc.
Qed.

End InitFacts.

(** ** Loading the descriptor *)

Section GetConfigFacts.

Context {Ext : Type} (X : Externals Ext).

Lemma get_config_missing (st : State Ext) :
  fs (world st) !! config_path st = None ->
  Commands.get_config X st
  = (Raise (IOError ("File not found: '" +:+ config_path st +:+ "' does not exist.")), st).
Proof.
  intros H. unfold Commands.get_config, config_path in *. run.
  rewrite H. rewrite bool_decide_eq_false_2 by (intros [? ?]; discriminate).
  reflexivity.
Qed.

Lemma get_config_present (st : State Ext) (data : string) :
  fs (world st) !! config_path st = Some data ->
  Commands.get_config X st
  = (match yaml_safe_load X data with
     | Ok v => Config.new v
     | Raise (YAMLError m) => Raise (RuntimeError (YAMLError m))
     | Raise e => Raise e
     end, st).
Proof.
  intros H. unfold Commands.get_config, config_path in *. run.
  unfold try_except_else. run.
  rewrite bool_decide_eq_true_2 by eauto. run. rewrite H.
  destruct (yaml_safe_load X data) as [v|e]; [reflexivity|].
  destruct e; reflexivity.
Qed.

(** [get_config] only reads. *)
Lemma get_config_reads (st : State Ext) : snd (Commands.get_config X st) = st.
Proof.
  destruct (fs (world st) !! config_path st) as [data|] eqn:E.
  - now rewrite (get_config_present st data E).
  - now rewrite (get_config_missing st E).
Qed.

(** A lifecycle command is [get_config] followed by the operations of
    the command, in order. *)
Lemma lifecycle_command_run (c : Commands.Subcommand) (st : State Ext) :
  Commands.is_lifecycle c = true ->
  Commands.mangum_cli X c st
  = match Commands.get_config X st with
    | (Ok config, st') => invoke_seq X config (lifecycle_ops c) st'
    | (Raise e, st') => (Raise e, st')
    end.
Proof.
  intros Hc.
  destruct c; try discriminate Hc; cbn [Commands.mangum_cli lifecycle_ops invoke_seq];
    unfold Commands.build, Commands.package, Commands.deploy, Commands.all,
           Commands.validate, Commands.delete, Commands.describe;
    unfold mbind, M_bind, bind, ret;
    destruct (Commands.get_config X st) as [[config|e] st']; try reflexivity;
    repeat match goal with
           | |- context [invoke X ?c ?o ?s] =>
               destruct (invoke X c o s) as [[[]|?] ?]; try reflexivity
           end.
Qed.

Lemma invoke_calls (config : Config.t) (op : LifecycleOp) (st : State Ext) :
  calls (snd (invoke X config op st)) = calls st ++ [EvLifecycle config op].
Proof. unfold invoke. now destruct (lifecycle X config op (world st)). Qed.

(** The calls a run of [invoke_seq] logs are a prefix of the operations
    asked for, and all of them when the run returns normally. *)
Lemma invoke_seq_calls (config : Config.t) (ops : list LifecycleOp) (st : State Ext) :
  exists made,
    made `prefix_of` ops /\
    calls (snd (invoke_seq X config ops st)) = calls st ++ map (EvLifecycle config) made /\
    (fst (invoke_seq X config ops st) = Ok tt -> made = ops).
Proof.
  revert st. induction ops as [|op ops IH]; intros st.
  - exists []. cbn. rewrite app_nil_r. repeat split; reflexivity.
  - cbn [invoke_seq]. unfold mbind, M_bind, bind.
    pose proof (invoke_calls config op st) as Hop.
    destruct (invoke X config op st) as [[[]|e] s1]; cbn [snd] in Hop.
    + destruct (IH s1) as (made & Hpre & Hcalls & Hall).
      exists (op :: made). split; [now apply prefix_cons|]. split.
      * rewrite Hcalls, Hop. cbn [map]. now rewrite <- app_assoc.
      * intros Hok. f_equal. now apply Hall.
    + exists [op]. split; [apply prefix_cons, prefix_nil|]. split.
      * exact Hop.
      * discriminate.
Qed.

End GetConfigFacts.

(** ** [init] and the descriptor *)

Section InitClaims.

Context {Ext : Type} (X : Externals Ext).
Variables (name : string) (bucket_name region_name runtime : option string).
Variables (s3_access dynamodb_access : bool).

#[local] Abbreviation init_args :=
  (Commands.init X name bucket_name region_name runtime s3_access dynamodb_access).
#[local] Abbreviation the_descriptor :=
  (Commands.descriptor name bucket_name region_name runtime s3_access dynamodb_access).

Lemma init_ok (st : State Ext) : fst (init_args st) = Ok tt.
Proof. now rewrite init_run. Qed.

Lemma init_cwd (st : State Ext) : cwd (world (snd (init_args st))) = cwd (world st).
Proof. now rewrite init_run. Qed.

Lemma init_writes_descriptor (st : State Ext) :
  fs (world (snd (init_args st))) !! config_path st = Some (yaml_dump X the_descriptor).
Proof.
  rewrite init_run. cbn [snd world fs]. unfold config_path.
  rewrite lookup_insert_ne by (apply not_eq_sym, config_path_ne_requirements).
  apply lookup_insert_eq.
Qed.

Lemma init_appends (st : State Ext) :
  fs (world (snd (init_args st))) !! requirements_path st
  = Some (content st (requirements_path st) +:+ "mangum" +:+ nl).
Proof. rewrite init_run. cbn [snd world fs]. apply lookup_insert_eq. Qed.

(** C1: [init] followed by [get_config] in the same directory gives a
    [Config] whose fields are the values [init] was given, provided
    [yaml.safe_load] reads back the mapping that [yaml.dump] wrote. *)
Theorem init_then_get_config_roundtrip (st : State Ext) :
  yaml_safe_load X (yaml_dump X the_descriptor) = Ok the_descriptor ->
  let st' := snd (init_args st) in
  exists config,
    Commands.get_config X st' = (Ok config, st') /\
    Config.name config = PStr name /\
    Config.bucket_name config = opt_str bucket_name /\
    Config.region_name config = opt_str region_name /\
    Config.runtime config = opt_str runtime /\
    Config.s3_access config = PBool s3_access /\
    Config.dynamodb_access config = PBool dynamodb_access.
Proof.
  intros Hrt st'.
  assert (Hfile : fs (world st') !! config_path st' = Some (yaml_dump X the_descriptor)).
  { unfold config_path, st'. rewrite init_cwd. apply init_writes_descriptor. }
  rewrite (get_config_present X st' _ Hfile), Hrt.
  eexists. split; [reflexivity|]. cbn. repeat split; reflexivity.
Qed.

(** C2: a name that fails the pattern or is longer than 128 characters
    makes [init] echo the six lines of the warning, and [init] goes on
    to echo its progress lines, to write the dump of the ten settings to
    the descriptor, and returns normally. *)
Theorem init_warns_and_still_writes (st : State Ext) :
  Re.matches stack_name_re name = false \/ 128 < String.length name ->
  let out := init_args st in
  fst out = Ok tt /\
  stdout (world (snd out))
  = stdout (world st)
    ++ [ "*** WARNING ***";
         "Illegal stack name.";
         "A stack name can contain only alphanumeric characters (case-sensitive) and hyphens.";
         "It must start with an alphabetic character and can't be longer than 128 characters.";
         "(https://docs.aws.amazon.com/AWSCloudFormation/latest/UserGuide/cfn-using-console-create-stack-parameters.html)";
         "";
         "Generating initial configuration...";
         "Configuration saved to: " +:+ cwd (world st) +:+ "/mangum.yml" ] /\
  fs (world (snd out)) !! path_join (cwd (world st)) "mangum.yml"
  = Some (yaml_dump X
            (PDict [ ("name", PStr name);
                     ("code_dir", PStr "app");
                     ("handler", PStr "asgi.handler");
                     ("bucket_name", opt_str bucket_name);
                     ("region_name", opt_str region_name);
                     ("runtime", opt_str runtime);
                     ("websockets", PBool false);
                     ("timeout", PInt 300);
                     ("s3_access", PBool s3_access);
                     ("dynamodb_access", PBool dynamodb_access) ])).
Proof.
  intros Hbad out. split; [apply init_ok|].
  split; [|exact (init_writes_descriptor st)].
  assert (Hno : stack_name_ok name = false).
  { unfold stack_name_ok. destruct Hbad as [-> | Hlen]; [reflexivity|].
    apply andb_false_intro2. apply Nat.leb_gt. exact Hlen. }
  unfold out. rewrite init_run. cbn [snd world stdout].
  unfold init_output. now rewrite Hno.
Qed.

(** C9: [init] puts the line [mangum] after whatever [requirements.txt]
    held, and no file other than the descriptor and [requirements.txt]
    changes. *)
Theorem init_appends_one_requirement (st : State Ext) :
  let st' := snd (init_args st) in
  fs (world st') !! requirements_path st
  = Some (content st (requirements_path st) +:+ "mangum" +:+ nl) /\
  forall path : string,
    path ≠ config_path st -> path ≠ requirements_path st ->
    fs (world st') !! path = fs (world st) !! path.
Proof.
  intros st'. split; [apply init_appends|].
  intros path Hyml Hreq. unfold st'. rewrite init_run. cbn [snd world fs].
  rewrite lookup_insert_ne by (apply not_eq_sym, Hreq).
  now rewrite lookup_insert_ne by (apply not_eq_sym, Hyml).
Qed.

(** In lines: after a requirements file that is empty or ends its last
    line, [init] adds the line [mangum] and keeps the others. *)
Lemma init_adds_a_line (st : State Ext) :
  content st (requirements_path st) = "" \/
  (exists body, content st (requirements_path st) = body +:+ nl) ->
  splitlines (content (snd (init_args st)) (requirements_path st))
  = splitlines (content st (requirements_path st)) ++ ["mangum"].
Proof.
  intros Hold. unfold content at 1. rewrite init_appends. cbn [default].
  destruct Hold as [-> | [body ->]].
  - vm_compute. reflexivity.
  - rewrite string_app_assoc. apply splitlines_append_line.
Qed.

End InitClaims.

(** A requirements file whose last line is not ended: the text of [init]
    continues that line. *)
Example init_after_unterminated_line :
  let st := mkState (mkWorld "/home/u/proj" {[ "/home/u/proj/requirements.txt" := "flask" ]}
                       [] Ref.account) [] in
  fs (world (snd (Commands.init Ref.externals "my-app" None None (Some "python3.7") true true st)))
    !! "/home/u/proj/requirements.txt"
  = Some ("flaskmangum" +:+ nl).
Proof. vm_compute. reflexivity. Qed.

(** ** [init] run several times *)

Section InitTimes.

Context {Ext : Type} (X : Externals Ext).
Variables (name : string) (bucket_name region_name runtime : option string).
Variables (s3_access dynamodb_access : bool).

#[local] Abbreviation init_once :=
  (Commands.init X name bucket_name region_name runtime s3_access dynamodb_access).
#[local] Abbreviation init_n n :=
  (Commands.init_times X n name bucket_name region_name runtime s3_access dynamodb_access).

Lemma init_times_succ (n : nat) (st : State Ext) :
  init_n (S n) st = init_n n (snd (init_once st)).
Proof.
  cbn [Commands.init_times]. unfold mbind, M_bind, bind.
  pose proof (init_ok X name bucket_name region_name runtime s3_access dynamodb_access st) as H.
  destruct (init_once st) as [r st1]. cbn [fst snd] in *. now rewrite H.
Qed.

Lemma init_times_ok (n : nat) (st : State Ext) : fst (init_n n st) = Ok tt.
Proof.
  revert st. induction n as [|n IH]; intros st; [reflexivity|].
  rewrite init_times_succ. apply IH.
Qed.

(** Once the descriptor is there, further runs leave it as it is. *)
Lemma init_times_keeps_descriptor (n : nat) (st : State Ext) :
  fs (world st) !! config_path st
  = Some (yaml_dump X (Commands.descriptor name bucket_name region_name runtime
                         s3_access dynamodb_access)) ->
  fs (world (snd (init_n n st))) !! config_path st
  = Some (yaml_dump X (Commands.descriptor name bucket_name region_name runtime
                         s3_access dynamodb_access)).
Proof.
  revert st. induction n as [|n IH]; intros st Hst; [exact Hst|].
  rewrite init_times_succ.
  set (st1 := snd (init_once st)).
  assert (Hp : config_path st1 = config_path st).
  { unfold config_path, st1. now rewrite init_cwd. }
  rewrite <- Hp. apply IH. rewrite Hp. apply init_writes_descriptor.
Qed.

(** Each run adds its line to the requirements file. *)
Lemma init_times_appends (n : nat) (st : State Ext) (c : string) :
  fs (world st) !! requirements_path st = Some c ->
  fs (world (snd (init_n n st))) !! requirements_path st = Some (c +:+ mangum_lines n).
Proof.
  revert st c. induction n as [|n IH]; intros st c Hst.
  - cbn [Commands.init_times ret snd mangum_lines]. now rewrite string_app_nil_r.
  - rewrite init_times_succ.
    set (st1 := snd (init_once st)).
    assert (Hp : requirements_path st1 = requirements_path st).
    { unfold requirements_path, st1. now rewrite init_cwd. }
    rewrite <- Hp.
    rewrite (IH st1 (c +:+ "mangum" +:+ nl)).
    + cbn [mangum_lines]. now rewrite !string_app_assoc.
    + rewrite Hp. unfold st1. rewrite init_appends. unfold content. now rewrite Hst.
Qed.

Lemma mangum_lines_inj (n m : nat) : mangum_lines n = mangum_lines m -> n = m.
Proof.
  revert m. induction n as [|n IH]; intros [|m] H; try reflexivity; try discriminate H.
  f_equal. apply IH. cbn [mangum_lines] in H.
  apply (inj (String.app "mangum")) in H. now apply (inj (String.app nl)) in H.
Qed.

(** C10: [n] runs of [init] with the same arguments leave the descriptor
    that one run leaves, and leave [n] lines [mangum] after the former
    content of [requirements.txt]; from two runs on, that is not what one
    run leaves there. *)
Theorem init_repeated (n : nat) (st : State Ext) :
  1 <= n ->
  let once := snd (init_once st) in
  let many := snd (init_n n st) in
  fs (world many) !! config_path st = fs (world once) !! config_path st /\
  fs (world many) !! requirements_path st
  = Some (content st (requirements_path st) +:+ mangum_lines n) /\
  (2 <= n ->
   fs (world many) !! requirements_path st ≠ fs (world once) !! requirements_path st).
Proof.
  intros Hn once many.
  destruct n as [|k]; [lia|].
  assert (Hmany : many = snd (init_n k once)).
  { unfold many, once. now rewrite init_times_succ. }
  assert (Hcp : config_path once = config_path st).
  { unfold config_path, once. now rewrite init_cwd. }
  assert (Hrp : requirements_path once = requirements_path st).
  { unfold requirements_path, once. now rewrite init_cwd. }
  assert (Hreq : fs (world many) !! requirements_path st
                 = Some (content st (requirements_path st) +:+ mangum_lines (S k))).
  { rewrite Hmany, <- Hrp.
    rewrite (init_times_appends k once (content st (requirements_path st) +:+ "mangum" +:+ nl)).
    - cbn [mangum_lines]. rewrite Hrp. now rewrite !string_app_assoc.
    - rewrite Hrp. apply init_appends. }
  split; [|split].
  - rewrite Hmany, <- Hcp. rewrite init_times_keeps_descriptor.
    + rewrite Hcp. symmetry. apply init_writes_descriptor.
    + rewrite Hcp. apply init_writes_descriptor.
  - exact Hreq.
  - intros H2 Heq. rewrite Hreq in Heq. unfold once in Heq.
    rewrite init_appends in Heq. injection Heq as Heq.
    apply (inj (String.app _)) in Heq.
    change (mangum_lines (S k) = mangum_lines 1) in Heq.
    apply mangum_lines_inj in Heq. lia.
Qed.

End InitTimes.

(** ** The lifecycle commands *)

Section LifecycleClaims.

Context {Ext : Type} (X : Externals Ext).

(** C3: without [mangum.yml] in the working directory, each of [build],
    [package], [deploy], [all], [validate], [delete] and [describe] ends
    with the [IOError] of [get_config]; no method of the configuration
    object has been called and nothing has changed. *)
Theorem missing_descriptor_fails_first (c : Commands.Subcommand) (st : State Ext) :
  Commands.is_lifecycle c = true ->
  fs (world st) !! config_path st = None ->
  let out := Commands.mangum_cli X c st in
  fst out = Raise (IOError ("File not found: '" +:+ config_path st +:+ "' does not exist.")) /\
  calls (snd out) = calls st /\
  snd out = st.
Proof.
  intros Hc Hmiss out. unfold out.
  rewrite (lifecycle_command_run X c st Hc), (get_config_missing X st Hmiss).
  repeat split; reflexivity.
Qed.

(** C6: when the descriptor is there and [yaml.safe_load] raises a
    [YAMLError] on it, [get_config] raises a [RuntimeError] built from
    that error, and so does every command that loads the descriptor,
    before any call to the configuration object. *)
Theorem malformed_descriptor_is_wrapped (st : State Ext) (data m : string) :
  fs (world st) !! config_path st = Some data ->
  yaml_safe_load X data = Raise (YAMLError m) ->
  Commands.get_config X st = (Raise (RuntimeError (YAMLError m)), st) /\
  forall c : Commands.Subcommand,
    Commands.is_lifecycle c = true ->
    Commands.mangum_cli X c st = (Raise (RuntimeError (YAMLError m)), st).
Proof.
  intros Hfile Hyaml.
  assert (Hget : Commands.get_config X st = (Raise (RuntimeError (YAMLError m)), st)).
  { rewrite (get_config_present X st data Hfile), Hyaml. reflexivity. }
  split; [exact Hget|].
  intros c Hc. rewrite (lifecycle_command_run X c st Hc), Hget. reflexivity.
Qed.

(** C8, as the code has it: once the descriptor is loaded, a command
    calls the operations of [lifecycle_ops] in order on the loaded
    configuration, with the flag it was given, and stops at the first
    that raises; its outcome is theirs. [build], [package], [validate],
    [delete] and [describe] call the operation of their name; [deploy]
    calls [deploy] and then [describe]; [all] calls [build], [package],
    [deploy] and [describe]. *)
Theorem lifecycle_command_dispatch (c : Commands.Subcommand) (st : State Ext)
    (config : Config.t) :
  Commands.is_lifecycle c = true ->
  fst (Commands.get_config X st) = Ok config ->
  let out := Commands.mangum_cli X c st in
  out = invoke_seq X config (lifecycle_ops c) st /\
  exists made : list LifecycleOp,
    made `prefix_of` lifecycle_ops c /\
    calls (snd out) = calls st ++ map (EvLifecycle config) made /\
    (fst out = Ok tt -> made = lifecycle_ops c).
Proof.
  intros Hc Hget out.
  assert (Hrun : out = invoke_seq X config (lifecycle_ops c) st).
  { unfold out. rewrite (lifecycle_command_run X c st Hc).
    pose proof (get_config_reads X st) as Hread.
    destruct (Commands.get_config X st) as [r st']. cbn [fst snd] in *. now subst. }
  split; [exact Hrun|]. rewrite Hrun. apply invoke_seq_calls.
Qed.

End LifecycleClaims.

(** ** [create_bucket] *)

Section CreateBucketClaims.

Context {Ext : Type} (X : Externals Ext).

(** The bucket name and the region are always settled, without a call to
    a collaborator that is logged. *)
Lemma bucket_and_region_total (bucket_name region_name : option string) (st : State Ext) :
  exists b r st1,
    Commands.bucket_and_region X bucket_name region_name st = (Ok (b, r), st1) /\
    calls st1 = calls st.
Proof.
  unfold Commands.bucket_and_region, Commands.get_default_region_name, gen_uuid4. run.
  destruct (falsy bucket_name), (falsy region_name); run;
    try destruct (uuid4 X (ext (world st))) as [u x1]; run; eauto.
Qed.

(** [create_bucket] is [bucket_and_region] followed by the [try]
    statement. *)
Lemma create_bucket_run (bucket_name region_name : option string) (st : State Ext) :
  Commands.create_bucket X bucket_name region_name st
  = match Commands.bucket_and_region X bucket_name region_name st with
    | (Ok (b, r), st1) =>
        try_except_else (client_create_bucket X b r)
          (except_ClientError (fun exc => echo (str_exn exc)))
          (fun _ => echo (Commands.bucket_message b r)) st1
    | (Raise e, st1) => (Raise e, st1)
    end.
Proof.
  unfold Commands.create_bucket, Commands.bucket_and_region, Commands.bucket_message,
    Commands.get_default_region_name, gen_uuid4. run.
  destruct (falsy bucket_name), (falsy region_name); run;
    try destruct (uuid4 X (ext (world st))) as [u x1]; run; reflexivity.
Qed.

(** C4: without a bucket name, the name sent to S3 is [mangum-] followed
    by the identifier that [uuid.uuid4()] returns in this run. *)
Theorem create_bucket_generates_name (bucket_name region_name : option string)
    (st : State Ext) :
  falsy bucket_name = true ->
  let u := fst (uuid4 X (ext (world st))) in
  let x1 := snd (uuid4 X (ext (world st))) in
  let region := if falsy region_name then session_region_name X x1 else region_name in
  fst (Commands.bucket_and_region X bucket_name region_name st) = Ok ("mangum-" +:+ u, region) /\
  calls (snd (Commands.create_bucket X bucket_name region_name st))
  = calls st ++ [EvCreateBucket ("mangum-" +:+ u) region].
Proof.
  intros Hno u x1 region. subst u x1 region.
  rewrite create_bucket_run.
  unfold Commands.bucket_and_region, Commands.get_default_region_name, gen_uuid4. run.
  rewrite Hno. run.
  destruct (uuid4 X (ext (world st))) as [u x1]. run.
  unfold try_except_else, client_create_bucket.
  destruct (falsy region_name); run.
  - split; [reflexivity|].
    destruct (s3_create_bucket X ("mangum-" +:+ u) (session_region_name X x1) x1) as [[[]|e] x2];
      [reflexivity|]. destruct e; reflexivity.
  - split; [reflexivity|].
    destruct (s3_create_bucket X ("mangum-" +:+ u) region_name x1) as [[[]|e] x2];
      [reflexivity|]. destruct e; reflexivity.
Qed.

(** C7: the request to S3 is made once. When it raises a [ClientError],
    [create_bucket] echoes the error and nothing else, and returns
    normally. The message with the bucket name and the region is echoed
    when the request returns, and only then: any other exception leaves
    [create_bucket] as it is, with nothing echoed. *)
Theorem create_bucket_catches_client_error (bucket_name region_name : option string)
    (st st1 : State Ext) (b : string) (r : option string) :
  Commands.bucket_and_region X bucket_name region_name st = (Ok (b, r), st1) ->
  let reply := fst (s3_create_bucket X b r (ext (world st1))) in
  let out := Commands.create_bucket X bucket_name region_name st in
  calls (snd out) = calls st ++ [EvCreateBucket b r] /\
  (forall m, reply = Raise (ClientError m) ->
             fst out = Ok tt /\ stdout (world (snd out)) = stdout (world st1) ++ [m]) /\
  (reply = Ok tt ->
   fst out = Ok tt /\
   stdout (world (snd out)) = stdout (world st1) ++ [Commands.bucket_message b r]) /\
  (forall e, reply = Raise e -> (forall m, e ≠ ClientError m) ->
             fst out = Raise e /\ stdout (world (snd out)) = stdout (world st1)).
Proof.
  intros Hpre reply out.
  destruct (bucket_and_region_total bucket_name region_name st) as (b' & r' & s' & Hpre' & Hcalls).
  rewrite Hpre in Hpre'. injection Hpre' as <- <- <-.
  unfold out, reply. rewrite create_bucket_run, Hpre.
  unfold try_except_else, client_create_bucket.
  destruct (s3_create_bucket X b r (ext (world st1))) as [[[]|e] x2]; cbn [fst].
  - run. rewrite Hcalls. split; [reflexivity|]. split; [discriminate|].
    split; [split; reflexivity|]. discriminate.
  - destruct e; cbn [except_ClientError]; run; rewrite Hcalls;
      (split; [reflexivity|]); (split; [|split; [discriminate|]]);
      try (intros ? [= <-]; split; reflexivity);
      try discriminate;
      try (intros ? [= <-] ?; split; reflexivity).
    intros e [= <-] Hne. now destruct (Hne msg).
Qed.

End CreateBucketClaims.

(** ** The stack-name check *)

Lemma at_eol_iff (s : string) : Re.at_eol s = true <-> s = "" \/ s = nl.
Proof.
  destruct s as [|c [|c' s']]; cbn.
  - split; [now left | reflexivity].
  - destruct (decide (c = "010"%char)) as [-> | Hc].
    + split; [now right | reflexivity].
    + split; [discriminate|]. intros [H | H]; [discriminate H|].
      injection H as H. contradiction.
  - split; [discriminate|]. intros [H | H]; discriminate H.
Qed.

(** What [cls+$] matches: a non-empty run of the class that is the whole
    string, or the whole string but for a final line feed. *)
Lemma many_then_eol_iff (cls : ascii -> bool) (s : string) :
  Re.many_then cls (fun t => Re.at_eol t && true) s = true <->
  exists body, body ≠ "" /\ string_forall cls body = true /\
               (s = body \/ s = body +:+ nl).
Proof.
  induction s as [|c s IH]; cbn [Re.many_then].
  - split; [discriminate|]. intros (body & Hne & _ & [H | H]).
    + now subst.
    + destruct body; [contradiction | discriminate H].
  - rewrite andb_true_iff, orb_true_iff, IH, andb_true_r, at_eol_iff. split.
    + intros (Hc & [(body & Hne & Hall & Hs) | Hs]).
      * exists (String c body). split; [discriminate|]. split.
        { cbn. now rewrite Hc, Hall. }
        destruct Hs as [-> | ->]; [now left | now right].
      * exists (String c ""). split; [discriminate|]. split.
        { cbn. now rewrite Hc. }
        destruct Hs as [-> | ->]; [now left | now right].
    + intros (body & Hne & Hall & Hs).
      destruct body as [|c' body]; [contradiction|].
      cbn in Hall. apply andb_true_iff in Hall as [Hc Hall].
      assert (Hcs : c = c' /\ (s = body \/ s = body +:+ nl)).
      { destruct Hs as [H | H]; injection H as -> ->; auto. }
      clear Hs. destruct Hcs as [-> Hs]. split; [exact Hc|].
      destruct body as [|c'' body].
      * right. exact Hs.
      * left. exists (String c'' body). split; [discriminate|]. split; [exact Hall | exact Hs].
Qed.

(** The names that pass the check of [init]. *)
Lemma stack_name_ok_iff (name : string) :
  stack_name_ok name = true <->
  exists c body,
    cls_alpha c = true /\ body ≠ "" /\ string_forall cls_alpha_hyphen body = true /\
    (name = String c body \/ name = String c (body +:+ nl)) /\
    String.length name <= 128.
Proof.
  unfold stack_name_ok, Re.matches, stack_name_re. cbn [Re.match_at andb].
  rewrite andb_true_iff, Nat.leb_le. split.
  - intros [Hm Hlen]. destruct name as [|c s]; [discriminate Hm|].
    apply andb_true_iff in Hm as [Hc Hm].
    apply many_then_eol_iff in Hm as (body & Hne & Hall & Hs).
    exists c, body. repeat split; try assumption.
    destruct Hs as [-> | ->]; [now left | now right].
  - intros (c & body & Hc & Hne & Hall & Hs & Hlen). split; [|exact Hlen].
    assert (Hm : Re.many_then cls_alpha_hyphen (fun t => Re.at_eol t && true)
                   (match name with String _ s => s | EmptyString => "" end) = true).
    { apply many_then_eol_iff. exists body. repeat split; try assumption.
      destruct Hs as [-> | ->]; [now left | now right]. }
    destruct Hs as [-> | ->]; now rewrite Hc.
Qed.

Lemma string_forall_impl (p q : ascii -> bool) (s : string) :
  (forall c, p c = true -> q c = true) ->
  string_forall p s = true -> string_forall q s = true.
Proof.
  intros Hpq. induction s as [|c s IH]; cbn; [reflexivity|].
  rewrite !andb_true_iff. intros [Hc Hs]. split; [now apply Hpq | now apply IH].
Qed.

(** The check is at least as strict as the rule of the specification,
    but for the names that [$] lets end in a line feed. *)
Lemma stack_name_ok_within_rule (name : string) :
  stack_name_ok name = true ->
  spec_valid_stack_name name = true \/ exists body, name = body +:+ nl.
Proof.
  intros H. apply stack_name_ok_iff in H as (c & body & Hc & Hne & Hall & Hs & Hlen).
  destruct Hs as [-> | ->].
  - left. unfold spec_valid_stack_name. rewrite !andb_true_iff. split; [split|].
    + exact Hc.
    + cbn. rewrite andb_true_iff. split.
      * unfold is_alnum_or_hyphen, is_alpha. unfold cls_alpha in Hc. now rewrite Hc.
      * revert Hall. apply string_forall_impl. intros c'.
        unfold cls_alpha_hyphen, is_alnum_or_hyphen, is_alpha.
        rewrite !orb_true_iff. tauto.
    + now apply Nat.leb_le.
  - right. exists (String c body). reflexivity.
Qed.

(** C5: the check of [init] is not the rule of the specification. A name
    with a digit meets the rule (and the text of the warning), yet the
    pattern leaves digits out and [init] warns about it. *)
Theorem stack_name_check_rejects_digits :
  spec_valid_stack_name "app1" = true /\
  stack_name_ok "app1" = false /\
  forall (X : Externals Ref.Account),
    stdout (world (snd (Commands.init X "app1" None None (Some "python3.7") true true Ref.fresh)))
    = Commands.warning_lines
      ++ [ "Generating initial configuration...";
           "Configuration saved to: /home/u/proj/mangum.yml" ].
Proof.
  split; [reflexivity|]. split; [reflexivity|].
  intros X. rewrite init_run. reflexivity.
Qed.

(** ** The claims on the example project *)

Lemma init_then_get_config_roundtrip_witness :
  let st' := snd (Commands.init Ref.externals "my-app" (Some "builds") None (Some "python3.7")
                    true false Ref.populated) in
  exists config,
    Commands.get_config Ref.externals st' = (Ok config, st') /\
    Config.name config = PStr "my-app" /\
    Config.bucket_name config = PStr "builds" /\
    Config.region_name config = PNone /\
    Config.runtime config = PStr "python3.7" /\
    Config.s3_access config = PBool true /\
    Config.dynamodb_access config = PBool false.
Proof.
  apply (init_then_get_config_roundtrip Ref.externals "my-app" (Some "builds") None
           (Some "python3.7") true false Ref.populated).
  vm_compute. reflexivity.
Defined.

Lemma init_warns_and_still_writes_witness :
  Re.matches stack_name_re "app1" = false /\
  stdout (world (snd (Commands.init Ref.externals "app1" None None (Some "python3.7") true true
                        Ref.fresh)))
  = [ "*** WARNING ***";
      "Illegal stack name.";
      "A stack name can contain only alphanumeric characters (case-sensitive) and hyphens.";
      "It must start with an alphabetic character and can't be longer than 128 characters.";
      "(https://docs.aws.amazon.com/AWSCloudFormation/latest/UserGuide/cfn-using-console-create-stack-parameters.html)";
      "";
      "Generating initial configuration...";
      "Configuration saved to: /home/u/proj/mangum.yml" ] /\
  fs (world (snd (Commands.init Ref.externals "app1" None None (Some "python3.7") true true
                    Ref.fresh)))
    !! "/home/u/proj/mangum.yml"
  = Some ("name: app1" +:+ nl +:+ "code_dir: app" +:+ nl +:+ "handler: asgi.handler" +:+ nl +:+
          "bucket_name: null" +:+ nl +:+ "region_name: null" +:+ nl +:+
          "runtime: python3.7" +:+ nl +:+ "websockets: false" +:+ nl +:+ "timeout: 300" +:+ nl +:+
          "s3_access: true" +:+ nl +:+ "dynamodb_access: true" +:+ nl).
Proof.
  split; [reflexivity|].
  exact (proj2 (init_warns_and_still_writes Ref.externals "app1" None None (Some "python3.7")
                  true true Ref.fresh (or_introl eq_refl))).
Defined.

Lemma init_appends_one_requirement_witness :
  fs (world (snd (Commands.init Ref.externals "my-app" None None (Some "python3.7") true true
                    Ref.populated)))
    !! "/home/u/proj/app/asgi.py"
  = Some ("handler = None" +:+ nl).
Proof.
  refine (eq_trans
            (proj2 (init_appends_one_requirement Ref.externals "my-app" None None
                      (Some "python3.7") true true Ref.populated)
               "/home/u/proj/app/asgi.py" _ _) _).
  - vm_compute. discriminate.
  - vm_compute. discriminate.
  - vm_compute. reflexivity.
Defined.

Lemma init_repeated_witness :
  1 <= 3 /\
  fs (world (snd (Commands.init_times Ref.externals 3 "my-app" None None (Some "python3.7")
                    true true Ref.populated)))
    !! "/home/u/proj/requirements.txt"
  = Some ("flask" +:+ nl +:+ "mangum" +:+ nl +:+ "mangum" +:+ nl +:+ "mangum" +:+ nl).
Proof.
  split; [lia|].
  refine (proj1 (proj2 (init_repeated Ref.externals "my-app" None None (Some "python3.7")
                          true true 3 Ref.populated _))).
  lia.
Defined.

Lemma missing_descriptor_fails_first_witness :
  Commands.is_lifecycle Commands.SubDeploy = true /\
  fs (world Ref.fresh) !! config_path Ref.fresh = None /\
  Commands.mangum_cli Ref.externals Commands.SubDeploy Ref.fresh
  = (Raise (IOError "File not found: '/home/u/proj/mangum.yml' does not exist."), Ref.fresh).
Proof.
  split; [reflexivity|]. split; [reflexivity|].
  destruct (missing_descriptor_fails_first Ref.externals Commands.SubDeploy Ref.fresh)
    as (Hres & _ & Hst); [reflexivity | reflexivity |].
  apply injective_projections; [exact Hres | exact Hst].
Defined.

Lemma malformed_descriptor_is_wrapped_witness :
  fs (world Ref.broken) !! config_path Ref.broken = Some "name" /\
  MiniYaml.safe_load "name" = Raise (YAMLError "could not find expected ':'") /\
  Commands.mangum_cli Ref.externals (Commands.SubAll false) Ref.broken
  = (Raise (RuntimeError (YAMLError "could not find expected ':'")), Ref.broken).
Proof.
  split; [reflexivity|]. split; [vm_compute; reflexivity|].
  apply (proj2 (malformed_descriptor_is_wrapped Ref.externals Ref.broken "name"
                  "could not find expected ':'" eq_refl ltac:(vm_compute; reflexivity))).
  reflexivity.
Defined.

Lemma lifecycle_command_dispatch_witness :
  Commands.is_lifecycle (Commands.SubAll true) = true /\
  fst (Commands.get_config Ref.externals Ref.project) = Ok Ref.config /\
  Commands.mangum_cli Ref.externals (Commands.SubAll true) Ref.project
  = invoke_seq Ref.externals Ref.config [Build true; Package; Deploy; Describe] Ref.project.
Proof.
  split; [reflexivity|]. split; [vm_compute; reflexivity|].
  apply (lifecycle_command_dispatch Ref.externals (Commands.SubAll true) Ref.project Ref.config).
  - reflexivity.
  - vm_compute. reflexivity.
Defined.

(** C8, as stated, fails on [deploy]: with the descriptor loaded, the
    command calls [describe] after [deploy]. *)
Lemma deploy_also_describes :
  fst (Commands.get_config Ref.externals Ref.project) = Ok Ref.config /\
  calls (snd (Commands.mangum_cli Ref.externals Commands.SubDeploy Ref.project))
  = [EvLifecycle Ref.config Deploy; EvLifecycle Ref.config Describe] /\
  ~ invokes_only Ref.externals Commands.SubDeploy Deploy Ref.project.
Proof.
  assert (Hget : fst (Commands.get_config Ref.externals Ref.project) = Ok Ref.config)
    by (vm_compute; reflexivity).
  assert (Hcalls : calls (snd (Commands.mangum_cli Ref.externals Commands.SubDeploy Ref.project))
                   = [EvLifecycle Ref.config Deploy; EvLifecycle Ref.config Describe])
    by (vm_compute; reflexivity).
  split; [exact Hget|]. split; [exact Hcalls|].
  intros Honly. specialize (Honly Ref.config Hget). rewrite Hcalls in Honly.
  discriminate Honly.
Qed.

Lemma create_bucket_generates_name_witness :
  falsy None = true /\
  calls (snd (Commands.create_bucket Ref.externals None None Ref.fresh))
  = [EvCreateBucket "mangum-123e4567-e89b-42d3-a456-426614174000" (Some "eu-west-1")].
Proof.
  split; [reflexivity|].
  apply (proj2 (create_bucket_generates_name Ref.externals None None Ref.fresh eq_refl)).
Defined.

Lemma create_bucket_catches_client_error_witness :
  Commands.bucket_and_region Ref.externals (Some "taken") (Some "eu-west-1") Ref.fresh
  = (Ok ("taken", Some "eu-west-1"), Ref.fresh) /\
  fst (Commands.create_bucket Ref.externals (Some "taken") (Some "eu-west-1") Ref.fresh) = Ok tt /\
  stdout (world (snd (Commands.create_bucket Ref.externals (Some "taken") (Some "eu-west-1")
                        Ref.fresh)))
  = ["An error occurred (BucketAlreadyExists) when calling the CreateBucket operation"].
Proof.
  split; [vm_compute; reflexivity|].
  apply (proj1 (proj2 (create_bucket_catches_client_error Ref.externals (Some "taken")
                         (Some "eu-west-1") Ref.fresh Ref.fresh "taken" (Some "eu-west-1")
                         ltac:(vm_compute; reflexivity)))).
  vm_compute. reflexivity.
Defined.

(** * Further properties of the commands *)

(** ** [init] *)

Section InitMore.

Context {Ext : Type} (X : Externals Ext).

(** X1: for a name that passes the check, [init] echoes its two progress
    lines and no warning. *)
Theorem init_quiet_for_accepted_name (name : string)
    (bucket_name region_name runtime : option string) (s3_access dynamodb_access : bool)
    (st : State Ext) :
  stack_name_ok name = true ->
  stdout (world (snd (Commands.init X name bucket_name region_name runtime
                        s3_access dynamodb_access st)))
  = stdout (world st)
    ++ [ "Generating initial configuration...";
         "Configuration saved to: " +:+ cwd (world st) +:+ "/mangum.yml" ].
Proof.
  intros Hok. rewrite init_run. cbn [snd world stdout].
  unfold init_output. now rewrite Hok.
Qed.

(** X2: [init] works on the two files only: it calls no collaborator,
    and the working directory and the world outside the process are as
    before. *)
Theorem init_is_local (name : string)
    (bucket_name region_name runtime : option string) (s3_access dynamodb_access : bool)
    (st : State Ext) :
  let st' := snd (Commands.init X name bucket_name region_name runtime
                    s3_access dynamodb_access st) in
  calls st' = calls st /\
  ext (world st') = ext (world st) /\
  cwd (world st') = cwd (world st) /\
  dom (fs (world st')) = {[ config_path st; requirements_path st ]} ∪ dom (fs (world st)).
Proof.
  cbn zeta. rewrite init_run. cbn [snd world calls ext cwd fs].
  repeat split. rewrite !dom_insert_L. unfold config_path, requirements_path.
  rewrite union_assoc_L. f_equal. apply union_comm_L.
Qed.

(** X3: a second [init] with other arguments replaces the descriptor of
    the first, and the requirements file has a line from each run. *)
Theorem init_again_replaces_descriptor
    (name1 name2 : string) (bucket1 region1 runtime1 bucket2 region2 runtime2 : option string)
    (s3_1 db1 s3_2 db2 : bool) (st : State Ext) :
  let st1 := snd (Commands.init X name1 bucket1 region1 runtime1 s3_1 db1 st) in
  let st2 := snd (Commands.init X name2 bucket2 region2 runtime2 s3_2 db2 st1) in
  fs (world st2) !! config_path st
  = Some (yaml_dump X (Commands.descriptor name2 bucket2 region2 runtime2 s3_2 db2)) /\
  fs (world st2) !! requirements_path st
  = Some (content st (requirements_path st) +:+ mangum_lines 2).
Proof.
  intros st1 st2.
  assert (Hcp : config_path st1 = config_path st).
  { unfold config_path, st1. now rewrite init_cwd. }
  assert (Hrp : requirements_path st1 = requirements_path st).
  { unfold requirements_path, st1. now rewrite init_cwd. }
  split.
  - rewrite <- Hcp. apply init_writes_descriptor.
  - rewrite <- Hrp. unfold st2. rewrite init_appends. f_equal.
    unfold content at 1. rewrite Hrp. unfold st1. rewrite init_appends.
    cbn [from_option mangum_lines]. unfold id.
    rewrite !string_app_assoc. now rewrite string_app_nil_r.
Qed.

(** X4: after [init], [get_config] finds the descriptor: its outcome is
    what the loader and the constructor make of the text [init] wrote,
    never the error for a missing file. *)
Theorem get_config_after_init (name : string)
    (bucket_name region_name runtime : option string) (s3_access dynamodb_access : bool)
    (st : State Ext) :
  let st' := snd (Commands.init X name bucket_name region_name runtime
                    s3_access dynamodb_access st) in
  let text := yaml_dump X (Commands.descriptor name bucket_name region_name runtime
                             s3_access dynamodb_access) in
  Commands.get_config X st'
  = (match yaml_safe_load X text with
     | Ok v => Config.new v
     | Raise (YAMLError m) => Raise (RuntimeError (YAMLError m))
     | Raise e => Raise e
     end, st').
Proof.
  intros st' text. apply get_config_present.
  unfold config_path, st'. rewrite init_cwd. apply init_writes_descriptor.
Qed.

(** X5: an exception of the loader that is not a [YAMLError] leaves
    [get_config] as it is, without a [RuntimeError] around it. *)
Theorem get_config_passes_other_errors (st : State Ext) (data : string) (e : exn) :
  fs (world st) !! config_path st = Some data ->
  yaml_safe_load X data = Raise e ->
  (forall m, e ≠ YAMLError m) ->
  Commands.get_config X st = (Raise e, st).
Proof.
  intros Hfile Hload Hne. rewrite (get_config_present X st data Hfile), Hload.
  destruct e; try reflexivity. now destruct (Hne msg).
Qed.

End InitMore.

(** ** The lifecycle commands *)

Section LifecycleMore.

Context {Ext : Type} (X : Externals Ext).

Lemma loaded_config (st : State Ext) (config : Config.t) :
  fst (Commands.get_config X st) = Ok config ->
  Commands.get_config X st = (Ok config, st).
Proof.
  intros H. pose proof (get_config_reads X st) as Hst.
  destruct (Commands.get_config X st) as [r st']. cbn [fst snd] in *. now subst.
Qed.

(** X6: when [config.deploy()] raises, [deploy] ends with that
    exception and [config.describe()] is not called. *)
Theorem deploy_failure_skips_describe (st : State Ext) (config : Config.t) (e : exn) :
  fst (Commands.get_config X st) = Ok config ->
  fst (lifecycle X config Deploy (world st)) = Raise e ->
  fst (Commands.deploy X st) = Raise e /\
  calls (snd (Commands.deploy X st)) = calls st ++ [EvLifecycle config Deploy].
Proof.
  intros Hget Hdep. unfold Commands.deploy. unfold mbind, M_bind, bind.
  rewrite (loaded_config st config Hget). unfold invoke.
  destruct (lifecycle X config Deploy (world st)) as [r w']. cbn [fst] in Hdep. subst r.
  split; reflexivity.
Qed.

(** X7: when [config.build()] raises, [all] ends with that exception;
    nothing is packaged, deployed or described. *)
Theorem all_stops_at_build_failure (no_pip : bool) (st : State Ext) (config : Config.t)
    (e : exn) :
  fst (Commands.get_config X st) = Ok config ->
  fst (lifecycle X config (Build no_pip) (world st)) = Raise e ->
  fst (Commands.all X no_pip st) = Raise e /\
  calls (snd (Commands.all X no_pip st)) = calls st ++ [EvLifecycle config (Build no_pip)].
Proof.
  intros Hget Hb. unfold Commands.all. unfold mbind, M_bind, bind.
  rewrite (loaded_config st config Hget). unfold invoke.
  destruct (lifecycle X config (Build no_pip) (world st)) as [r w']. cbn [fst] in Hb. subst r.
  split; reflexivity.
Qed.

(** X8: when the four operations return, [all] has called [build] with
    the flag, [package], [deploy] and [describe], in this order, each on
    the configuration loaded at the start and on the world the one
    before left. *)
Theorem all_runs_the_four (no_pip : bool) (st : State Ext) (config : Config.t)
    (w1 w2 w3 w4 : World Ext) :
  fst (Commands.get_config X st) = Ok config ->
  lifecycle X config (Build no_pip) (world st) = (Ok tt, w1) ->
  lifecycle X config Package w1 = (Ok tt, w2) ->
  lifecycle X config Deploy w2 = (Ok tt, w3) ->
  lifecycle X config Describe w3 = (Ok tt, w4) ->
  Commands.all X no_pip st
  = (Ok tt,
     mkState w4 (calls st ++ [ EvLifecycle config (Build no_pip); EvLifecycle config Package;
                               EvLifecycle config Deploy; EvLifecycle config Describe ])).
Proof.
  intros Hget H1 H2 H3 H4. unfold Commands.all. unfold mbind, M_bind, bind.
  rewrite (loaded_config st config Hget). unfold invoke. cbn [world calls].
  rewrite H1. cbn [world calls]. rewrite H2. cbn [world calls]. rewrite H3.
  cbn [world calls]. rewrite H4. now rewrite <- !app_assoc.
Qed.

End LifecycleMore.

(** ** [create_bucket] *)

Section CreateBucketMore.

Context {Ext : Type} (X : Externals Ext).

(** X9: with a bucket name and a region on the command line,
    [create_bucket] asks S3 for exactly these, draws no identifier and
    echoes nothing before the request. *)
Theorem create_bucket_uses_given_names (bucket region : string) (st : State Ext) :
  bucket ≠ "" -> region ≠ "" ->
  Commands.bucket_and_region X (Some bucket) (Some region) st = (Ok (bucket, Some region), st) /\
  calls (snd (Commands.create_bucket X (Some bucket) (Some region) st))
  = calls st ++ [EvCreateBucket bucket (Some region)].
Proof.
  intros Hb Hr.
  assert (Hpre : Commands.bucket_and_region X (Some bucket) (Some region) st
                 = (Ok (bucket, Some region), st)).
  { unfold Commands.bucket_and_region, falsy.
    destruct (decide (bucket = "")); [contradiction|].
    destruct (decide (region = "")); [contradiction|].
    run. now destruct st. }
  split; [exact Hpre|].
  rewrite create_bucket_run, Hpre. unfold try_except_else, client_create_bucket.
  destruct (s3_create_bucket X bucket (Some region) (ext (world st))) as [[[]|e] x2];
    [reflexivity|]. destruct e; reflexivity.
Qed.

(** X10: with a bucket name and no region, the region of the request is
    the one of the boto3 session, which may be none, and the notice
    about the default is echoed first. *)
Theorem create_bucket_default_region (bucket : string) (region_name : option string)
    (st : State Ext) :
  bucket ≠ "" -> falsy region_name = true ->
  let region := session_region_name X (ext (world st)) in
  Commands.bucket_and_region X (Some bucket) region_name st
  = (Ok (bucket, region),
     on_world (fun w => set_stdout (stdout w ++ ["No region specified, using default."]) w) st) /\
  calls (snd (Commands.create_bucket X (Some bucket) region_name st))
  = calls st ++ [EvCreateBucket bucket region].
Proof.
  intros Hb Hr region.
  assert (Hpre : Commands.bucket_and_region X (Some bucket) region_name st
                 = (Ok (bucket, region),
                    on_world (fun w => set_stdout
                                (stdout w ++ ["No region specified, using default."]) w) st)).
  { unfold Commands.bucket_and_region, Commands.get_default_region_name.
    rewrite Hr. unfold falsy. destruct (decide (bucket = "")); [contradiction|].
    run. reflexivity. }
  split; [exact Hpre|].
  rewrite create_bucket_run, Hpre. unfold try_except_else, client_create_bucket. run.
  destruct (s3_create_bucket X bucket region (ext (world st))) as [[[]|e] x2];
    [reflexivity|]. destruct e; reflexivity.
Qed.

(** X11: with neither on the command line, the notice about the bucket
    name comes before the one about the region, and the session is asked
    for its region after the identifier has been drawn. *)
Theorem create_bucket_both_defaults (bucket_name region_name : option string)
    (st : State Ext) :
  falsy bucket_name = true -> falsy region_name = true ->
  let u := fst (uuid4 X (ext (world st))) in
  let x1 := snd (uuid4 X (ext (world st))) in
  Commands.bucket_and_region X bucket_name region_name st
  = (Ok ("mangum-" +:+ u, session_region_name X x1),
     mkState
       (mkWorld (cwd (world st)) (fs (world st))
          (stdout (world st)
           ++ [ "No bucket name provided, one will be generated.";
                "No region specified, using default." ])
          x1)
       (calls st)).
Proof.
  intros Hb Hr u x1. subst u x1.
  unfold Commands.bucket_and_region, Commands.get_default_region_name, gen_uuid4.
  rewrite Hb, Hr. run.
  destruct (uuid4 X (ext (world st))) as [u x1]. run. now rewrite <- app_assoc.
Qed.

(** X12: [create_bucket] leaves the files and the working directory as
    they are, whatever S3 answers; it reads no descriptor. *)
Theorem create_bucket_leaves_files (bucket_name region_name : option string)
    (st : State Ext) :
  let st' := snd (Commands.create_bucket X bucket_name region_name st) in
  fs (world st') = fs (world st) /\ cwd (world st') = cwd (world st).
Proof.
  cbn zeta. rewrite create_bucket_run.
  unfold Commands.bucket_and_region, Commands.get_default_region_name, gen_uuid4,
    try_except_else, client_create_bucket.
  destruct (falsy bucket_name), (falsy region_name); run;
    try destruct (uuid4 X (ext (world st))) as [u x1]; run;
    match goal with
    | |- context [s3_create_bucket X ?b ?r ?x] =>
        destruct (s3_create_bucket X b r x) as [[[]|e] x2]
    end; run; try (split; reflexivity);
    destruct e; cbn [except_ClientError]; run; split; reflexivity.
Qed.

End CreateBucketMore.

(** ** The names the check of [init] lets through *)

Lemma string_forall_app (p : ascii -> bool) (a b : string) :
  string_forall p (a +:+ b) = string_forall p a && string_forall p b.
Proof.
  induction a as [|c a IH]; [reflexivity|].
  change (string_forall p (String c (a +:+ b)) = string_forall p (String c a) && string_forall p b).
  cbn [string_forall]. now rewrite IH, andb_assoc.
Qed.

Lemma string_length_app (a b : string) :
  String.length (a +:+ b) = String.length a + String.length b.
Proof.
  induction a as [|c a IH]; [reflexivity|].
  change (S (String.length (a +:+ b)) = S (String.length a + String.length b)).
  now rewrite IH.
Qed.

(** X13: a name with a character that is neither a letter nor a hyphen
    (a digit, an underscore, a dot) fails the check, wherever the
    character stands, unless it is a line feed. *)
Theorem stack_name_rejects_other_characters (before after : string) (c : ascii) :
  cls_alpha_hyphen c = false -> c ≠ "010"%char ->
  stack_name_ok (before +:+ String c after) = false.
Proof.
  intros Hc Hnl.
  destruct (stack_name_ok (before +:+ String c after)) eqn:E; [|reflexivity].
  exfalso.
  apply stack_name_ok_iff in E as (c0 & body & Hc0 & _ & Hall & Hs & _).
  set (p := fun x : ascii => cls_alpha_hyphen x || (if decide (x = "010"%char) then true else false)).
  assert (Hp : string_forall p (before +:+ String c after) = true).
  { assert (Hbody : string_forall p body = true).
    { revert Hall. apply string_forall_impl. intros x Hx. unfold p. now rewrite Hx. }
    assert (Hp0 : p c0 = true).
    { unfold p, cls_alpha_hyphen. unfold cls_alpha in Hc0.
      apply orb_true_iff in Hc0 as [-> | ->]; [reflexivity|]. now rewrite orb_true_r. }
    destruct Hs as [-> | ->]; cbn [string_forall]; rewrite Hp0; cbn [andb].
    - exact Hbody.
    - rewrite string_forall_app, Hbody. reflexivity. }
  rewrite string_forall_app in Hp. apply andb_true_iff in Hp as [_ Hp].
  cbn [string_forall] in Hp. apply andb_true_iff in Hp as [Hp _].
  unfold p in Hp. rewrite Hc in Hp. destruct (decide (c = "010"%char)); [contradiction|].
  discriminate Hp.
Qed.

(** X14: a name that ends in a line feed passes the check when the rest
    of it does: [$] matches before a final line feed. *)
Theorem stack_name_accepts_final_newline (c : ascii) (body : string) :
  cls_alpha c = true -> body ≠ "" -> string_forall cls_alpha_hyphen body = true ->
  String.length (String c body) < 128 ->
  stack_name_ok (String c body +:+ nl) = true.
Proof.
  intros Hc Hne Hall Hlen. apply stack_name_ok_iff.
  exists c, body. repeat split; try assumption.
  - right. reflexivity.
  - rewrite string_length_app. change (String.length nl) with 1.
    cbn [String.length] in *. lia.
Qed.

(** X15: a name of fewer than two characters fails the check: the
    pattern asks for a letter and at least one more character. *)
Theorem stack_name_rejects_short_names (name : string) :
  String.length name < 2 -> stack_name_ok name = false.
Proof.
  intros Hlen. destruct (stack_name_ok name) eqn:E; [|reflexivity]. exfalso.
  apply stack_name_ok_iff in E as (c & body & _ & Hne & _ & Hs & _).
  destruct body as [|c' body]; [contradiction|].
  destruct Hs as [-> | ->]; cbn [String.length] in Hlen;
    rewrite ?string_length_app in Hlen; cbn [String.length] in Hlen; lia.
Qed.

(** X16: a letter followed by letters and hyphens, at least one and at
    most 127 of them, passes the check. *)
Theorem stack_name_accepts_letters_and_hyphens (c : ascii) (body : string) :
  cls_alpha c = true -> body ≠ "" -> string_forall cls_alpha_hyphen body = true ->
  String.length (String c body) <= 128 ->
  stack_name_ok (String c body) = true.
Proof.
  intros Hc Hne Hall Hlen. apply stack_name_ok_iff.
  exists c, body. repeat split; try assumption. now left.
Qed.

(** ** Completion matching *)

Lemma startswith_iff (str incomplete : string) :
  Completion.startswith str incomplete = true <-> exists rest, str = incomplete +:+ rest.
Proof.
  revert str. induction incomplete as [|a p IH]; intros str.
  - split; [|intros _; now destruct str]. intros _. exists str. reflexivity.
  - destruct str as [|b s]; cbn [Completion.startswith].
    + split; [discriminate|]. intros [rest H]. discriminate H.
    + destruct (decide (a = b)) as [-> | Hab]; cbn [andb].
      * rewrite IH. split; intros [rest H]; exists rest.
        -- subst s. reflexivity.
        -- injection H as H. exact H.
      * split; [discriminate|]. intros [rest H]. injection H as H _. congruence.
Qed.

Lemma ascii_lower_app (a b : string) :
  Completion.ascii_lower (a +:+ b) = Completion.ascii_lower a +:+ Completion.ascii_lower b.
Proof.
  induction a as [|c a IH]; [reflexivity|].
  change (String (Completion.ascii_lower_char c) (Completion.ascii_lower (a +:+ b))
          = String (Completion.ascii_lower_char c)
              (Completion.ascii_lower a +:+ Completion.ascii_lower b)).
  now rewrite IH.
Qed.

Section CompletionFacts.

Variable lower : string -> string.

(** X17: while the variable is unset or empty, [custom_startswith] is
    the plain prefix test, case included. *)
Theorem custom_startswith_case_sensitive (environ : gmap string string)
    (str incomplete : string) :
  falsy (environ !! Completion.CASE_INSENSITIVE_COMPLETE) = true ->
  (Completion.custom_startswith lower environ str incomplete = true
   <-> exists rest, str = incomplete +:+ rest).
Proof.
  intros Hoff. unfold Completion.custom_startswith. rewrite Hoff. cbn [negb].
  apply startswith_iff.
Qed.

(** X18: once the variable has a value, two ASCII strings match when
    they do after lowering their letters, whatever the case typed. *)
Theorem custom_startswith_ignores_case (environ : gmap string string)
    (str incomplete : string) :
  (forall s, Completion.is_ascii s = true -> lower s = Completion.ascii_lower s) ->
  falsy (environ !! Completion.CASE_INSENSITIVE_COMPLETE) = false ->
  Completion.is_ascii str = true -> Completion.is_ascii incomplete = true ->
  (Completion.custom_startswith lower environ str incomplete = true
   <-> exists rest,
         Completion.ascii_lower str = Completion.ascii_lower incomplete +:+ rest).
Proof.
  intros Hlow Hon Hs Hi. unfold Completion.custom_startswith. rewrite Hon. cbn [negb].
  rewrite (Hlow str Hs), (Hlow incomplete Hi). apply startswith_iff.
Qed.

(** X19: on ASCII strings, a completion that matches as typed matches
    whatever the environment: turning case-insensitive matching on never
    loses a candidate. *)
Theorem custom_startswith_keeps_matches (environ : gmap string string)
    (str incomplete : string) :
  (forall s, Completion.is_ascii s = true -> lower s = Completion.ascii_lower s) ->
  Completion.is_ascii str = true -> Completion.is_ascii incomplete = true ->
  Completion.startswith str incomplete = true ->
  Completion.custom_startswith lower environ str incomplete = true.
Proof.
  intros Hlow Hs Hi Hpre. unfold Completion.custom_startswith.
  destruct (negb (falsy (environ !! Completion.CASE_INSENSITIVE_COMPLETE))); [|exact Hpre].
  rewrite (Hlow str Hs), (Hlow incomplete Hi).
  apply startswith_iff in Hpre as [rest ->]. apply startswith_iff.
  exists (Completion.ascii_lower rest). apply ascii_lower_app.
Qed.

(** X20: in an environment that holds what [complement] asks for when
    given the case-insensitive flag, [custom_startswith] compares the
    lowered strings. *)
Theorem extra_env_turns_case_off (environ : gmap string string) (str incomplete : string) :
  Completion.extra_env true ⊆ environ ->
  Completion.custom_startswith lower environ str incomplete
  = Completion.startswith (lower str) (lower incomplete).
Proof.
  intros Hsub. unfold Completion.custom_startswith.
  assert (H : environ !! Completion.CASE_INSENSITIVE_COMPLETE = Some "ON").
  { eapply lookup_weaken; [|exact Hsub]. unfold Completion.extra_env. apply lookup_singleton_eq. }
  rewrite H. reflexivity.
Qed.

End CompletionFacts.

(** ** The listing of shells in the help text *)

Lemma spaces_length (n : nat) : String.length (Completion.spaces n) = n.
Proof. induction n as [|n IH]; cbn; [reflexivity | now rewrite IH]. Qed.

(** X21: the listing names every shell once, in the order of the names,
    one line each. *)
Theorem shell_listing_complete (shells : gmap string string) :
  Sorted String.le (Completion.shell_keys shells) /\
  NoDup (Completion.shell_keys shells) /\
  (forall k, k ∈ Completion.shell_keys shells <-> is_Some (shells !! k)) /\
  List.length (Completion.shell_lines shells) = size shells.
Proof.
  assert (Hperm : Completion.shell_keys shells ≡ₚ elements (dom shells))
    by apply merge_sort_Permutation.
  split; [apply Sorted_merge_sort, _|]. split; [|split].
  - rewrite Hperm. apply NoDup_elements.
  - intros k. rewrite Hperm, elem_of_elements. apply elem_of_dom.
  - unfold Completion.shell_lines. rewrite length_map, Hperm.
    rewrite <- size_dom. reflexivity.
Qed.

(** X22: a shell name of at most 12 characters is padded so that its
    description starts in column 14; a longer one is written in full,
    with one space before the description. The name is taken to be
    ASCII, so that its length in bytes is the width the formatter
    counts. *)
Theorem shell_line_aligned (k v : string) :
  Completion.is_ascii k = true ->
  (String.length k <= 12 ->
   exists pad, Completion.shell_line k v = pad +:+ v /\ String.length pad = 13 /\
               Completion.startswith pad k = true) /\
  (12 <= String.length k -> Completion.shell_line k v = k +:+ " " +:+ v).
Proof.
  intros _. unfold Completion.shell_line, Completion.ljust. split.
  - intros Hlen. exists (k +:+ Completion.spaces (12 - String.length k) +:+ " ").
    split; [now rewrite !string_app_assoc|]. split.
    + rewrite !string_length_app, spaces_length. change (String.length " ") with 1. lia.
    + apply startswith_iff. eauto.
  - intros Hlen. replace (12 - String.length k) with 0 by lia.
    cbn [Completion.spaces]. now rewrite string_app_nil_r.
Qed.

(** ** The further properties on the example project *)

Example cmd_help_ex :
  Completion.shell_lines RefCompletion.shells
  = [ "bash         Bourne again shell";
      "fish         Friendly interactive shell";
      "powershell   Windows PowerShell";
      "zsh          Z shell" ].
Proof. vm_compute. reflexivity. Qed.

Lemma init_quiet_for_accepted_name_witness :
  stack_name_ok "my-app" = true /\
  stdout (world (snd (Commands.init Ref.externals "my-app" None None (Some "python3.7")
                        true true Ref.fresh)))
  = [ "Generating initial configuration...";
      "Configuration saved to: /home/u/proj/mangum.yml" ].
Proof.
  split; [reflexivity|].
  apply (init_quiet_for_accepted_name Ref.externals "my-app" None None (Some "python3.7")
           true true Ref.fresh).
  reflexivity.
Defined.

Lemma get_config_passes_other_errors_witness :
  Commands.get_config RefFailing.no_memory Ref.project
  = (Raise (OtherError "MemoryError" "out of memory"), Ref.project).
Proof.
  apply (get_config_passes_other_errors RefFailing.no_memory Ref.project Ref.descriptor_text).
  - vm_compute. reflexivity.
  - reflexivity.
  - intros m H. discriminate H.
Defined.

Lemma deploy_failure_skips_describe_witness :
  fst (Commands.deploy RefFailing.externals Ref.project)
  = Raise (OtherError "WaiterError" "stack creation failed") /\
  calls (snd (Commands.deploy RefFailing.externals Ref.project))
  = [EvLifecycle Ref.config Deploy].
Proof.
  apply (deploy_failure_skips_describe RefFailing.externals Ref.project Ref.config).
  - vm_compute. reflexivity.
  - reflexivity.
Defined.

Lemma all_stops_at_build_failure_witness :
  fst (Commands.all RefFailing.externals true Ref.project)
  = Raise (OtherError "CalledProcessError" "pip install failed") /\
  calls (snd (Commands.all RefFailing.externals true Ref.project))
  = [EvLifecycle Ref.config (Build true)].
Proof.
  apply (all_stops_at_build_failure RefFailing.externals true Ref.project Ref.config).
  - vm_compute. reflexivity.
  - reflexivity.
Defined.

Lemma all_runs_the_four_witness :
  calls (snd (Commands.all Ref.externals false Ref.project))
  = [ EvLifecycle Ref.config (Build false); EvLifecycle Ref.config Package;
      EvLifecycle Ref.config Deploy; EvLifecycle Ref.config Describe ] /\
  stdout (world (snd (Commands.all Ref.externals false Ref.project)))
  = ["build"; "package"; "deploy"; "describe"].
Proof.
  pose (w0 := world Ref.project).
  pose (w1 := set_stdout ["build"] w0).
  pose (w2 := set_stdout ["build"; "package"] w0).
  pose (w3 := set_stdout ["build"; "package"; "deploy"] w0).
  pose (w4 := set_stdout ["build"; "package"; "deploy"; "describe"] w0).
  rewrite (all_runs_the_four Ref.externals false Ref.project Ref.config w1 w2 w3 w4).
  - split; reflexivity.
  - vm_compute. reflexivity.
  - reflexivity.
  - reflexivity.
  - reflexivity.
  - reflexivity.
Defined.

Lemma create_bucket_uses_given_names_witness :
  calls (snd (Commands.create_bucket Ref.externals (Some "builds") (Some "eu-west-1") Ref.fresh))
  = [EvCreateBucket "builds" (Some "eu-west-1")].
Proof.
  apply (create_bucket_uses_given_names Ref.externals "builds" "eu-west-1" Ref.fresh).
  - discriminate.
  - discriminate.
Defined.

Lemma create_bucket_default_region_witness :
  calls (snd (Commands.create_bucket Ref.externals (Some "builds") None Ref.fresh))
  = [EvCreateBucket "builds" (Some "eu-west-1")].
Proof.
  apply (create_bucket_default_region Ref.externals "builds" None Ref.fresh).
  - discriminate.
  - reflexivity.
Defined.

Lemma create_bucket_both_defaults_witness :
  stdout (world (snd (Commands.bucket_and_region Ref.externals None (Some "") Ref.fresh)))
  = [ "No bucket name provided, one will be generated.";
      "No region specified, using default." ].
Proof.
  rewrite (create_bucket_both_defaults Ref.externals None (Some "") Ref.fresh);
    reflexivity.
Defined.

Lemma stack_name_rejects_other_characters_witness :
  stack_name_ok "my_app" = false.
Proof.
  apply (stack_name_rejects_other_characters "my" "app" "_"%char).
  - reflexivity.
  - discriminate.
Defined.

Lemma stack_name_accepts_final_newline_witness :
  stack_name_ok ("app" +:+ nl) = true.
Proof.
  apply (stack_name_accepts_final_newline "a"%char "pp").
  - reflexivity.
  - discriminate.
  - reflexivity.
  - cbn. lia.
Defined.

Lemma stack_name_rejects_short_names_witness :
  stack_name_ok "a" = false.
Proof. apply (stack_name_rejects_short_names "a"). cbn. lia. Defined.

Lemma stack_name_accepts_letters_and_hyphens_witness :
  stack_name_ok "my-app" = true.
Proof.
  apply (stack_name_accepts_letters_and_hyphens "m"%char "y-app").
  - reflexivity.
  - discriminate.
  - reflexivity.
  - cbn. lia.
Defined.

Lemma custom_startswith_case_sensitive_witness :
  Completion.custom_startswith Completion.ascii_lower RefCompletion.plain_environ
    "deploy" "De" = true
  <-> exists rest, "deploy" = "De" +:+ rest.
Proof.
  apply (custom_startswith_case_sensitive Completion.ascii_lower RefCompletion.plain_environ
           "deploy" "De").
  reflexivity.
Defined.

Lemma custom_startswith_ignores_case_witness :
  Completion.custom_startswith Completion.ascii_lower RefCompletion.insensitive_environ
    "deploy" "De" = true
  <-> exists rest, Completion.ascii_lower "deploy" = Completion.ascii_lower "De" +:+ rest.
Proof.
  apply (custom_startswith_ignores_case Completion.ascii_lower
           RefCompletion.insensitive_environ "deploy" "De").
  - intros s _. reflexivity.
  - reflexivity.
  - reflexivity.
  - reflexivity.
Defined.

Lemma custom_startswith_keeps_matches_witness :
  Completion.custom_startswith Completion.ascii_lower RefCompletion.insensitive_environ
    "create-bucket" "cre" = true.
Proof.
  apply (custom_startswith_keeps_matches Completion.ascii_lower
           RefCompletion.insensitive_environ "create-bucket" "cre").
  - intros s _. reflexivity.
  - reflexivity.
  - reflexivity.
  - reflexivity.
Defined.

Lemma extra_env_turns_case_off_witness :
  Completion.custom_startswith Completion.ascii_lower RefCompletion.insensitive_environ
    "deploy" "DEP"
  = Completion.startswith "deploy" "dep".
Proof.
  apply (extra_env_turns_case_off Completion.ascii_lower RefCompletion.insensitive_environ
           "deploy" "DEP").
  apply map_union_subseteq_l.
Defined.

Lemma shell_line_aligned_witness :
  String.length "powershell" <= 12 /\
  exists pad,
    Completion.shell_line "powershell" "Windows PowerShell" = pad +:+ "Windows PowerShell" /\
    String.length pad = 13 /\
    Completion.startswith pad "powershell" = true.
Proof.
  split; [cbn; lia|].
  apply (proj1 (shell_line_aligned "powershell" "Windows PowerShell" eq_refl)).
  cbn. lia.
Defined.
